(** * fbxmetrics: discovery, URL building and registration of the Freebox probe

    A shallow embedding of the Python sources [freebox.py], [fbx.py],
    [freeprobe.py] and [fbxmetrics.py].

    - Python [str] values are Rocq strings holding the UTF-8 encoding of the
      text; [bytes] values are lists of bytes.
    - A dictionary whose order is irrelevant ([Freebox._properties]) is a
      [gmap]; the dictionary handed to [json.dumps] keeps its insertion order
      and is an association list.
    - Code that raises returns [Raise e]; code that acts on the network or the
      terminal runs in the monad [M], which threads the state of the outside
      world and the log of the effects performed so far. *)

From Stdlib Require Import ZArith NArith Ascii String Strings.Byte DecimalString.
From stdpp Require Import base option list strings gmap.

Local Open Scope Z_scope.

(** ** Unicode case data

    The tables that [str.lower] reads, as CPython 3.11 carries them
    (Unicode 14.0.0): the simple lowercase mappings, the code points that
    are Cased and those that are Case_Ignorable. *)

Module Unicode.

Local Open Scope N_scope.

(** The simple lowercase mappings, in runs: from [first] to [last] every
    [step]-th code point is mapped, [first] to [image] and the others at the
    same distance. *)
Definition lowercase_runs : list (N * N * N * N) :=
  [
   (65, 90, 1, 97); (192, 214, 1, 224); (216, 222, 1, 248);
   (256, 302, 2, 257); (306, 310, 2, 307); (313, 327, 2, 314);
   (330, 374, 2, 331); (376, 376, 1, 255); (377, 381, 2, 378);
   (385, 385, 1, 595); (386, 388, 2, 387); (390, 390, 1, 596);
   (391, 391, 1, 392); (393, 394, 1, 598); (395, 395, 1, 396);
   (398, 398, 1, 477); (399, 399, 1, 601); (400, 400, 1, 603);
   (401, 401, 1, 402); (403, 403, 1, 608); (404, 404, 1, 611);
   (406, 406, 1, 617); (407, 407, 1, 616); (408, 408, 1, 409);
   (412, 412, 1, 623); (413, 413, 1, 626); (415, 415, 1, 629);
   (416, 420, 2, 417); (422, 422, 1, 640); (423, 423, 1, 424);
   (425, 425, 1, 643); (428, 428, 1, 429); (430, 430, 1, 648);
   (431, 431, 1, 432); (433, 434, 1, 650); (435, 437, 2, 436);
   (439, 439, 1, 658); (440, 440, 1, 441); (444, 444, 1, 445);
   (452, 452, 1, 454); (453, 453, 1, 454); (455, 455, 1, 457);
   (456, 456, 1, 457); (458, 458, 1, 460); (459, 475, 2, 460);
   (478, 494, 2, 479); (497, 497, 1, 499); (498, 500, 2, 499);
   (502, 502, 1, 405); (503, 503, 1, 447); (504, 542, 2, 505);
   (544, 544, 1, 414); (546, 562, 2, 547); (570, 570, 1, 11365);
   (571, 571, 1, 572); (573, 573, 1, 410); (574, 574, 1, 11366);
   (577, 577, 1, 578); (579, 579, 1, 384); (580, 580, 1, 649);
   (581, 581, 1, 652); (582, 590, 2, 583); (880, 882, 2, 881);
   (886, 886, 1, 887); (895, 895, 1, 1011); (902, 902, 1, 940);
   (904, 906, 1, 941); (908, 908, 1, 972); (910, 911, 1, 973);
   (913, 929, 1, 945); (931, 939, 1, 963); (975, 975, 1, 983);
   (984, 1006, 2, 985); (1012, 1012, 1, 952); (1015, 1015, 1, 1016);
   (1017, 1017, 1, 1010); (1018, 1018, 1, 1019); (1021, 1023, 1, 891);
   (1024, 1039, 1, 1104); (1040, 1071, 1, 1072); (1120, 1152, 2, 1121);
   (1162, 1214, 2, 1163); (1216, 1216, 1, 1231); (1217, 1229, 2, 1218);
   (1232, 1326, 2, 1233); (1329, 1366, 1, 1377); (4256, 4293, 1, 11520);
   (4295, 4295, 1, 11559); (4301, 4301, 1, 11565); (5024, 5103, 1, 43888);
   (5104, 5109, 1, 5112); (7312, 7354, 1, 4304); (7357, 7359, 1, 4349);
   (7680, 7828, 2, 7681); (7838, 7838, 1, 223); (7840, 7934, 2, 7841);
   (7944, 7951, 1, 7936); (7960, 7965, 1, 7952); (7976, 7983, 1, 7968);
   (7992, 7999, 1, 7984); (8008, 8013, 1, 8000); (8025, 8031, 2, 8017);
   (8040, 8047, 1, 8032); (8072, 8079, 1, 8064); (8088, 8095, 1, 8080);
   (8104, 8111, 1, 8096); (8120, 8121, 1, 8112); (8122, 8123, 1, 8048);
   (8124, 8124, 1, 8115); (8136, 8139, 1, 8050); (8140, 8140, 1, 8131);
   (8152, 8153, 1, 8144); (8154, 8155, 1, 8054); (8168, 8169, 1, 8160);
   (8170, 8171, 1, 8058); (8172, 8172, 1, 8165); (8184, 8185, 1, 8056);
   (8186, 8187, 1, 8060); (8188, 8188, 1, 8179); (8486, 8486, 1, 969);
   (8490, 8490, 1, 107); (8491, 8491, 1, 229); (8498, 8498, 1, 8526);
   (8544, 8559, 1, 8560); (8579, 8579, 1, 8580); (9398, 9423, 1, 9424);
   (11264, 11311, 1, 11312); (11360, 11360, 1, 11361);
   (11362, 11362, 1, 619); (11363, 11363, 1, 7549); (11364, 11364, 1, 637);
   (11367, 11371, 2, 11368); (11373, 11373, 1, 593); (11374, 11374, 1, 625);
   (11375, 11375, 1, 592); (11376, 11376, 1, 594); (11378, 11378, 1, 11379);
   (11381, 11381, 1, 11382); (11390, 11391, 1, 575);
   (11392, 11490, 2, 11393); (11499, 11501, 2, 11500);
   (11506, 11506, 1, 11507); (42560, 42604, 2, 42561);
   (42624, 42650, 2, 42625); (42786, 42798, 2, 42787);
   (42802, 42862, 2, 42803); (42873, 42875, 2, 42874);
   (42877, 42877, 1, 7545); (42878, 42886, 2, 42879);
   (42891, 42891, 1, 42892); (42893, 42893, 1, 613);
   (42896, 42898, 2, 42897); (42902, 42920, 2, 42903);
   (42922, 42922, 1, 614); (42923, 42923, 1, 604); (42924, 42924, 1, 609);
   (42925, 42925, 1, 620); (42926, 42926, 1, 618); (42928, 42928, 1, 670);
   (42929, 42929, 1, 647); (42930, 42930, 1, 669); (42931, 42931, 1, 43859);
   (42932, 42946, 2, 42933); (42948, 42948, 1, 42900);
   (42949, 42949, 1, 642); (42950, 42950, 1, 7566); (42951, 42953, 2, 42952);
   (42960, 42960, 1, 42961); (42966, 42968, 2, 42967);
   (42997, 42997, 1, 42998); (65313, 65338, 1, 65345);
   (66560, 66599, 1, 66600); (66736, 66771, 1, 66776);
   (66928, 66964, 2, 66967); (66929, 66937, 2, 66968);
   (66941, 66953, 2, 66980); (66957, 66961, 2, 66996);
   (66965, 66965, 1, 67004); (68736, 68786, 1, 68800);
   (71840, 71871, 1, 71872); (93760, 93791, 1, 93792);
   (125184, 125217, 1, 125218)
  ].

(** The ranges of the code points with the property Cased. *)
Definition cased_ranges : list (N * N) :=
  [
   (65, 90); (97, 122); (170, 170); (181, 181); (186, 186); (192, 214);
   (216, 246); (248, 442); (444, 447); (452, 659); (661, 696); (704, 705);
   (736, 740); (837, 837); (880, 883); (886, 887); (890, 893); (895, 895);
   (902, 902); (904, 906); (908, 908); (910, 929); (931, 1013); (1015, 1153);
   (1162, 1327); (1329, 1366); (1376, 1416); (4256, 4293); (4295, 4295);
   (4301, 4301); (4304, 4346); (4349, 4351); (5024, 5109); (5112, 5117);
   (7296, 7304); (7312, 7354); (7357, 7359); (7424, 7615); (7680, 7957);
   (7960, 7965); (7968, 8005); (8008, 8013); (8016, 8023); (8025, 8025);
   (8027, 8027); (8029, 8029); (8031, 8061); (8064, 8116); (8118, 8124);
   (8126, 8126); (8130, 8132); (8134, 8140); (8144, 8147); (8150, 8155);
   (8160, 8172); (8178, 8180); (8182, 8188); (8305, 8305); (8319, 8319);
   (8336, 8348); (8450, 8450); (8455, 8455); (8458, 8467); (8469, 8469);
   (8473, 8477); (8484, 8484); (8486, 8486); (8488, 8488); (8490, 8493);
   (8495, 8500); (8505, 8505); (8508, 8511); (8517, 8521); (8526, 8526);
   (8544, 8575); (8579, 8580); (9398, 9449); (11264, 11492); (11499, 11502);
   (11506, 11507); (11520, 11557); (11559, 11559); (11565, 11565);
   (42560, 42605); (42624, 42653); (42786, 42887); (42891, 42894);
   (42896, 42954); (42960, 42961); (42963, 42963); (42965, 42969);
   (42997, 42998); (43000, 43002); (43824, 43866); (43868, 43880);
   (43888, 43967); (64256, 64262); (64275, 64279); (65313, 65338);
   (65345, 65370); (66560, 66639); (66736, 66771); (66776, 66811);
   (66928, 66938); (66940, 66954); (66956, 66962); (66964, 66965);
   (66967, 66977); (66979, 66993); (66995, 67001); (67003, 67004);
   (67456, 67456); (67459, 67461); (67463, 67504); (67506, 67514);
   (68736, 68786); (68800, 68850); (71840, 71903); (93760, 93823);
   (119808, 119892); (119894, 119964); (119966, 119967); (119970, 119970);
   (119973, 119974); (119977, 119980); (119982, 119993); (119995, 119995);
   (119997, 120003); (120005, 120069); (120071, 120074); (120077, 120084);
   (120086, 120092); (120094, 120121); (120123, 120126); (120128, 120132);
   (120134, 120134); (120138, 120144); (120146, 120485); (120488, 120512);
   (120514, 120538); (120540, 120570); (120572, 120596); (120598, 120628);
   (120630, 120654); (120656, 120686); (120688, 120712); (120714, 120744);
   (120746, 120770); (120772, 120779); (122624, 122633); (122635, 122654);
   (125184, 125251); (127280, 127305); (127312, 127337); (127344, 127369)
  ].

(** The ranges of the code points with the property Case_Ignorable. *)
Definition case_ignorable_ranges : list (N * N) :=
  [
   (39, 39); (46, 46); (58, 58); (94, 94); (96, 96); (168, 168); (173, 173);
   (175, 175); (180, 180); (183, 184); (688, 879); (884, 885); (890, 890);
   (900, 901); (903, 903); (1155, 1161); (1369, 1369); (1375, 1375);
   (1425, 1469); (1471, 1471); (1473, 1474); (1476, 1477); (1479, 1479);
   (1524, 1524); (1536, 1541); (1552, 1562); (1564, 1564); (1600, 1600);
   (1611, 1631); (1648, 1648); (1750, 1757); (1759, 1768); (1770, 1773);
   (1807, 1807); (1809, 1809); (1840, 1866); (1958, 1968); (2027, 2037);
   (2042, 2042); (2045, 2045); (2070, 2093); (2137, 2139); (2184, 2184);
   (2192, 2193); (2200, 2207); (2249, 2306); (2362, 2362); (2364, 2364);
   (2369, 2376); (2381, 2381); (2385, 2391); (2402, 2403); (2417, 2417);
   (2433, 2433); (2492, 2492); (2497, 2500); (2509, 2509); (2530, 2531);
   (2558, 2558); (2561, 2562); (2620, 2620); (2625, 2626); (2631, 2632);
   (2635, 2637); (2641, 2641); (2672, 2673); (2677, 2677); (2689, 2690);
   (2748, 2748); (2753, 2757); (2759, 2760); (2765, 2765); (2786, 2787);
   (2810, 2815); (2817, 2817); (2876, 2876); (2879, 2879); (2881, 2884);
   (2893, 2893); (2901, 2902); (2914, 2915); (2946, 2946); (3008, 3008);
   (3021, 3021); (3072, 3072); (3076, 3076); (3132, 3132); (3134, 3136);
   (3142, 3144); (3146, 3149); (3157, 3158); (3170, 3171); (3201, 3201);
   (3260, 3260); (3263, 3263); (3270, 3270); (3276, 3277); (3298, 3299);
   (3328, 3329); (3387, 3388); (3393, 3396); (3405, 3405); (3426, 3427);
   (3457, 3457); (3530, 3530); (3538, 3540); (3542, 3542); (3633, 3633);
   (3636, 3642); (3654, 3662); (3761, 3761); (3764, 3772); (3782, 3782);
   (3784, 3789); (3864, 3865); (3893, 3893); (3895, 3895); (3897, 3897);
   (3953, 3966); (3968, 3972); (3974, 3975); (3981, 3991); (3993, 4028);
   (4038, 4038); (4141, 4144); (4146, 4151); (4153, 4154); (4157, 4158);
   (4184, 4185); (4190, 4192); (4209, 4212); (4226, 4226); (4229, 4230);
   (4237, 4237); (4253, 4253); (4348, 4348); (4957, 4959); (5906, 5908);
   (5938, 5939); (5970, 5971); (6002, 6003); (6068, 6069); (6071, 6077);
   (6086, 6086); (6089, 6099); (6103, 6103); (6109, 6109); (6155, 6159);
   (6211, 6211); (6277, 6278); (6313, 6313); (6432, 6434); (6439, 6440);
   (6450, 6450); (6457, 6459); (6679, 6680); (6683, 6683); (6742, 6742);
   (6744, 6750); (6752, 6752); (6754, 6754); (6757, 6764); (6771, 6780);
   (6783, 6783); (6823, 6823); (6832, 6862); (6912, 6915); (6964, 6964);
   (6966, 6970); (6972, 6972); (6978, 6978); (7019, 7027); (7040, 7041);
   (7074, 7077); (7080, 7081); (7083, 7085); (7142, 7142); (7144, 7145);
   (7149, 7149); (7151, 7153); (7212, 7219); (7222, 7223); (7288, 7293);
   (7376, 7378); (7380, 7392); (7394, 7400); (7405, 7405); (7412, 7412);
   (7416, 7417); (7468, 7530); (7544, 7544); (7579, 7679); (8125, 8125);
   (8127, 8129); (8141, 8143); (8157, 8159); (8173, 8175); (8189, 8190);
   (8203, 8207); (8216, 8217); (8228, 8228); (8231, 8231); (8234, 8238);
   (8288, 8292); (8294, 8303); (8305, 8305); (8319, 8319); (8336, 8348);
   (8400, 8432); (11388, 11389); (11503, 11505); (11631, 11631);
   (11647, 11647); (11744, 11775); (11823, 11823); (12293, 12293);
   (12330, 12333); (12337, 12341); (12347, 12347); (12441, 12446);
   (12540, 12542); (40981, 40981); (42232, 42237); (42508, 42508);
   (42607, 42610); (42612, 42621); (42623, 42623); (42652, 42655);
   (42736, 42737); (42752, 42785); (42864, 42864); (42888, 42890);
   (42994, 42996); (43000, 43001); (43010, 43010); (43014, 43014);
   (43019, 43019); (43045, 43046); (43052, 43052); (43204, 43205);
   (43232, 43249); (43263, 43263); (43302, 43309); (43335, 43345);
   (43392, 43394); (43443, 43443); (43446, 43449); (43452, 43453);
   (43471, 43471); (43493, 43494); (43561, 43566); (43569, 43570);
   (43573, 43574); (43587, 43587); (43596, 43596); (43632, 43632);
   (43644, 43644); (43696, 43696); (43698, 43700); (43703, 43704);
   (43710, 43711); (43713, 43713); (43741, 43741); (43756, 43757);
   (43763, 43764); (43766, 43766); (43867, 43871); (43881, 43883);
   (44005, 44005); (44008, 44008); (44013, 44013); (64286, 64286);
   (64434, 64450); (65024, 65039); (65043, 65043); (65056, 65071);
   (65106, 65106); (65109, 65109); (65279, 65279); (65287, 65287);
   (65294, 65294); (65306, 65306); (65342, 65342); (65344, 65344);
   (65392, 65392); (65438, 65439); (65507, 65507); (65529, 65531);
   (66045, 66045); (66272, 66272); (66422, 66426); (67456, 67461);
   (67463, 67504); (67506, 67514); (68097, 68099); (68101, 68102);
   (68108, 68111); (68152, 68154); (68159, 68159); (68325, 68326);
   (68900, 68903); (69291, 69292); (69446, 69456); (69506, 69509);
   (69633, 69633); (69688, 69702); (69744, 69744); (69747, 69748);
   (69759, 69761); (69811, 69814); (69817, 69818); (69821, 69821);
   (69826, 69826); (69837, 69837); (69888, 69890); (69927, 69931);
   (69933, 69940); (70003, 70003); (70016, 70017); (70070, 70078);
   (70089, 70092); (70095, 70095); (70191, 70193); (70196, 70196);
   (70198, 70199); (70206, 70206); (70367, 70367); (70371, 70378);
   (70400, 70401); (70459, 70460); (70464, 70464); (70502, 70508);
   (70512, 70516); (70712, 70719); (70722, 70724); (70726, 70726);
   (70750, 70750); (70835, 70840); (70842, 70842); (70847, 70848);
   (70850, 70851); (71090, 71093); (71100, 71101); (71103, 71104);
   (71132, 71133); (71219, 71226); (71229, 71229); (71231, 71232);
   (71339, 71339); (71341, 71341); (71344, 71349); (71351, 71351);
   (71453, 71455); (71458, 71461); (71463, 71467); (71727, 71735);
   (71737, 71738); (71995, 71996); (71998, 71998); (72003, 72003);
   (72148, 72151); (72154, 72155); (72160, 72160); (72193, 72202);
   (72243, 72248); (72251, 72254); (72263, 72263); (72273, 72278);
   (72281, 72283); (72330, 72342); (72344, 72345); (72752, 72758);
   (72760, 72765); (72767, 72767); (72850, 72871); (72874, 72880);
   (72882, 72883); (72885, 72886); (73009, 73014); (73018, 73018);
   (73020, 73021); (73023, 73029); (73031, 73031); (73104, 73105);
   (73109, 73109); (73111, 73111); (73459, 73460); (78896, 78904);
   (92912, 92916); (92976, 92982); (92992, 92995); (94031, 94031);
   (94095, 94111); (94176, 94177); (94179, 94180); (110576, 110579);
   (110581, 110587); (110589, 110590); (113821, 113822); (113824, 113827);
   (118528, 118573); (118576, 118598); (119143, 119145); (119155, 119170);
   (119173, 119179); (119210, 119213); (119362, 119364); (121344, 121398);
   (121403, 121452); (121461, 121461); (121476, 121476); (121499, 121503);
   (121505, 121519); (122880, 122886); (122888, 122904); (122907, 122913);
   (122915, 122916); (122918, 122922); (123184, 123197); (123566, 123566);
   (123628, 123631); (125136, 125142); (125252, 125259); (127995, 127999);
   (917505, 917505); (917536, 917631); (917760, 917999)
  ].

Definition in_ranges (c : N) (ranges : list (N * N)) : bool :=
  existsb (fun r => (r.1 <=? c) && (c <=? r.2)) ranges.

Definition IsCased (c : N) : bool := in_ranges c cased_ranges.
Definition IsCaseIgnorable (c : N) : bool := in_ranges c case_ignorable_ranges.

Definition in_run (c : N) (run : N * N * N * N) : bool :=
  let '(first, last, step, _) := run in
  (first <=? c) && (c <=? last) && ((c - first) mod step =? 0).

(** The simple lowercase mapping of a code point. *)
Definition ToLower (c : N) : N :=
  match List.find (in_run c) lowercase_runs with
  | Some (first, _, _, image) => c - first + image
  | None => c
  end.

(** The full lowercase mapping: the one code point with a longer image is
    U+0130, which gives U+0069 U+0307. *)
Definition ToLowerFull (c : N) : list N :=
  if c =? 304 then [105; 775] else [ToLower c].

End Unicode.

(** ** Python values, exceptions and the effect monad *)

Module Py.

(** The exceptions that the embedded code can raise or let through. *)
Inductive exn : Type :=
| KeyError (key : string)
| TypeError
| IndexError
| AttributeError (obj attr : string)
| UnicodeDecodeError
| KeyboardInterrupt
| OSError
| ConnectionError
| SystemExit (code : Z)
| FreeboxError (message : string).

Inductive result (A : Type) : Type :=
| Return (a : A)
| Raise (e : exn).
Arguments Return {A} a.
Arguments Raise {A} e.

#[global] Instance result_ret : MRet result := fun A a => Return a.
#[global] Instance result_bind : MBind result := fun A B k r =>
  match r with
  | Return a => k a
  | Raise e => Raise e
  end.

(** Code with side effects: a state of type [S] is threaded through, and an
    exception leaves the state as it was when the exception was raised. *)
Definition M (S A : Type) : Type := S -> result A * S.

#[global] Instance M_ret {S} : MRet (M S) := fun A a s => (Return a, s).
#[global] Instance M_bind {S} : MBind (M S) := fun A B k m s =>
  match m s with
  | (Return a, s') => k a s'
  | (Raise e, s') => (Raise e, s')
  end.

Definition raise {S A} (e : exn) : M S A := fun s => (Raise e, s).
Definition lift {S A} (r : result A) : M S A := fun s => (r, s).
Definition modify {S} (f : S -> S) : M S unit := fun s => (Return tt, f s).

(** [for x in l: body(x)] *)
Fixpoint for_each {S A} (l : list A) (body : A -> M S unit) : M S unit :=
  match l with
  | [] => mret tt
  | x :: l' => body x ;; for_each l' body
  end.

(** The values that flow through the embedded code. *)
Inductive value : Type :=
| VNone
| VStr (s : string)
| VInt (n : Z)
| VTuple (a b : value).

(** *** [str] methods *)

(** [s.split(sep)] for a one-character separator. *)
Fixpoint split (sep : ascii) (s : string) : list string :=
  match s with
  | EmptyString => [EmptyString]
  | String c s' =>
      if Ascii.eqb c sep then EmptyString :: split sep s'
      else match split sep s' with
           | piece :: rest => String c piece :: rest
           | [] => [String c EmptyString]
           end
  end.

(** [l[i]] on a list: [IndexError] out of range. *)
Definition index {A} (l : list A) (i : nat) : result A :=
  match l !! i with
  | Some a => Return a
  | None => Raise IndexError
  end.

(** [str(n)] for a non-negative integer. *)
Definition str_of_N (n : N) : string := NilEmpty.string_of_uint (N.to_uint n).

(** *** [bytes.decode()]: strict UTF-8 *)

Definition is_cont (b : N) : bool := ((128 <=? b) && (b <=? 191))%N.
Definition in_range (lo hi b : N) : bool := ((lo <=? b) && (b <=? hi))%N.

(** The code points encoded by a byte sequence, [None] where Python raises
    [UnicodeDecodeError] (stray or missing continuation bytes, overlong
    forms, surrogates, values above U+10FFFF). *)
Fixpoint utf8_code_points (bs : list N) : option (list N) :=
  match bs with
  | [] => Some []
  | b0 :: r0 =>
      if (b0 <? 128)%N then cons b0 <$> utf8_code_points r0
      else match r0 with
      | [] => None
      | b1 :: r1 =>
          if in_range 194 223 b0 then
            if is_cont b1
            then cons ((b0 - 192) * 64 + (b1 - 128))%N <$> utf8_code_points r1
            else None
          else match r1 with
          | [] => None
          | b2 :: r2 =>
              if in_range 224 239 b0 then
                if (if (b0 =? 224)%N then in_range 160 191 b1
                    else if (b0 =? 237)%N then in_range 128 159 b1
                    else is_cont b1) && is_cont b2
                then cons ((b0 - 224) * 4096 + (b1 - 128) * 64 + (b2 - 128))%N
                       <$> utf8_code_points r2
                else None
              else match r2 with
              | [] => None
              | b3 :: r3 =>
                  if in_range 240 244 b0 then
                    if (if (b0 =? 240)%N then in_range 144 191 b1
                        else if (b0 =? 244)%N then in_range 128 143 b1
                        else is_cont b1) && is_cont b2 && is_cont b3
                    then cons ((b0 - 240) * 262144 + (b1 - 128) * 4096
                               + (b2 - 128) * 64 + (b3 - 128))%N
                           <$> utf8_code_points r3
                    else None
                  else None
              end
          end
      end
  end.

Definition decode (bs : list byte) : result string :=
  match utf8_code_points (Byte.to_N <$> bs) with
  | Some _ => Return (string_of_list_byte bs)
  | None => Raise UnicodeDecodeError
  end.

(** *** [str.lower()] *)

(** The UTF-8 bytes of a code point. *)
Definition utf8_bytes (c : N) : list N :=
  if (c <? 128)%N then [c]
  else if (c <? 2048)%N then [192 + c / 64; 128 + c mod 64]%N
  else if (c <? 65536)%N
       then [224 + c / 4096; 128 + (c / 64) mod 64; 128 + c mod 64]%N
  else [240 + c / 262144; 128 + (c / 4096) mod 64; 128 + (c / 64) mod 64;
        128 + c mod 64]%N.

(** The text with the given code points. *)
Definition str_of_code_points (cps : list N) : string :=
  string_of_list_byte
    ((fun n => default x00 (Byte.of_N n)) <$> concat (utf8_bytes <$> cps)).

(** The first code point that is not Case_Ignorable, when there is one. *)
Fixpoint first_not_ignorable (l : list N) : option N :=
  match l with
  | [] => None
  | c :: l' => if Unicode.IsCaseIgnorable c then first_not_ignorable l' else Some c
  end.

(** A capital sigma is in final position when, Case_Ignorable code points
    apart, a cased letter comes before it and none comes after it.  [before]
    holds the code points before it, the nearest first. *)
Definition final_sigma (before after : list N) : bool :=
  match first_not_ignorable before with
  | Some c =>
      Unicode.IsCased c
      && match first_not_ignorable after with
         | Some c' => negb (Unicode.IsCased c')
         | None => true
         end
  | None => false
  end.

(** Each code point gives its full lowercase mapping; U+03A3 gives U+03C2 in
    final position and U+03C3 elsewhere. *)
Fixpoint lower_code_points (before l : list N) : list N :=
  match l with
  | [] => []
  | c :: l' =>
      (if (c =? 931)%N then [if final_sigma before l' then 962 else 963]%N
       else Unicode.ToLowerFull c)
      ++ lower_code_points (c :: before) l'
  end.

(** [s.lower()] *)
Definition lower (s : string) : string :=
  match utf8_code_points (Byte.to_N <$> list_byte_of_string s) with
  | Some cps => str_of_code_points (lower_code_points [] cps)
  | None => s
  end.

(** *** [json.dumps] of a dictionary from [str] to [str] *)

Definition dquote : string := String (ascii_of_N 34) EmptyString.

Definition hex_digit (n : N) : ascii :=
  if (n <? 10)%N then ascii_of_N (48 + n) else ascii_of_N (87 + n).

Definition hex4 (n : N) : string :=
  String (hex_digit (N.shiftr n 12 mod 16))
    (String (hex_digit (N.shiftr n 8 mod 16))
       (String (hex_digit (N.shiftr n 4 mod 16))
          (String (hex_digit (n mod 16)) EmptyString))).

(** One code point under [ensure_ascii=True]: the short escapes, printable
    ASCII as it is, everything else as [\uXXXX] (a surrogate pair above the
    basic plane). *)
Definition escape_code_point (cp : N) : string :=
  if (cp =? 34)%N then "\" +:+ dquote
  else if (cp =? 92)%N then "\\"
  else if (cp =? 8)%N then "\b"
  else if (cp =? 12)%N then "\f"
  else if (cp =? 10)%N then "\n"
  else if (cp =? 13)%N then "\r"
  else if (cp =? 9)%N then "\t"
  else if in_range 32 126 cp then String (ascii_of_N cp) EmptyString
  else if (cp <? 65536)%N then "\u" +:+ hex4 cp
  else
    let n := (cp - 65536)%N in
    "\u" +:+ hex4 (N.lor 55296 (N.land (N.shiftr n 10) 1023))
    +:+ "\u" +:+ hex4 (N.lor 56320 (N.land n 1023)).

Definition json_str (s : string) : string :=
  let bs := Byte.to_N <$> list_byte_of_string s in
  let cps := default bs (utf8_code_points bs) in
  dquote +:+ String.concat EmptyString (escape_code_point <$> cps) +:+ dquote.

Definition json_item (kv : string * string) : string :=
  json_str kv.1 +:+ ": " +:+ json_str kv.2.

Definition json_dumps (d : list (string * string)) : string :=
  "{" +:+ String.concat ", " (json_item <$> d) +:+ "}".

(** *** [os.path.dirname] (posixpath) *)

Definition is_slash (c : ascii) : bool := Ascii.eqb c "/"%char.

(** [p[:p.rfind('/') + 1]] *)
Fixpoint upto_last_slash (p : string) : string :=
  match p with
  | EmptyString => EmptyString
  | String c p' =>
      let r := upto_last_slash p' in
      if is_slash c then String c r
      else match r with
           | EmptyString => EmptyString
           | _ => String c r
           end
  end.

(** [head.rstrip('/')] *)
Fixpoint rstrip_slash (p : string) : string :=
  match p with
  | EmptyString => EmptyString
  | String c p' =>
      match rstrip_slash p' with
      | EmptyString => if is_slash c then EmptyString else String c EmptyString
      | r => String c r
      end
  end.

Definition dirname (p : string) : string :=
  let head := upto_last_slash p in
  match rstrip_slash head with
  | EmptyString => head
  | stripped => stripped
  end.

End Py.

Import Py.

(** ** The outside world: zeroconf, the network and the terminal *)

Module World.

(** A call made to the outside, in the order the calls are made.  The first
    five are the discovery session, [HttpPost] is [requests.post] and
    [Print] is [print]; [HttpGet] and [FileWrite] are the two remaining
    kinds of action that the specification names. *)
Inductive effect : Type :=
| NewZeroconf
| NewServiceBrowser (stype : string)
| Sleep (secs : Z)
| BrowserCancel
| ZeroconfClose
| HttpPost (url body : string)
| HttpGet (url : string)
| FileWrite (path : string) (mode : Z) (content : string)
| Print (msg : string).

(** What is held open, and what has been called so far. *)
Record world : Type := {
  zc_open : bool;      (* a Zeroconf socket is open *)
  browsing : bool;     (* a ServiceBrowser thread is subscribed *)
  log : list effect;
}.

Definition initial : world := {| zc_open := false; browsing := false; log := [] |}.

(** A value of a TXT record as zeroconf hands it over: bytes, or [None] or a
    boolean for a key without a usable value. *)
Inductive txt_value : Type :=
| TxtBytes (bs : list byte)
| TxtNone
| TxtBool (b : bool).

(** zeroconf's [ServiceInfo]. *)
Record ServiceInfo : Type := {
  name : string;
  type : string;
  server : string;
  port : Z;
  address : option (list byte);
  properties : list (list byte * txt_value);
}.

Record response : Type := { status_code : Z; text : string }.

(** Everything the code does not decide: whether a library call raises,
    which [add_service] callbacks the browser thread makes before it is
    cancelled (each with the answer of [zeroconf.get_service_info]), the
    host name, the resolved path of the script and the answers of the
    HTTP server: to a POST, and to the GET that comes after [k] earlier
    ones. *)
Record env : Type := {
  zeroconf_raises : option exn;
  browser_raises : option exn;
  sleep_raises : option exn;
  cancel_raises : option exn;
  close_raises : option exn;
  callbacks : list (option ServiceInfo);
  platform_node : string;
  script_realpath : string;
  post_reply : string -> string -> result response;
  get_reply : nat -> string -> result response;
}.

(** A library call: it is logged, then it raises or takes effect. *)
Definition call {A} (what : effect) (outcome : result A)
    (change : world -> world) : M world A := fun w =>
  let w := {| zc_open := zc_open w; browsing := browsing w;
              log := log w ++ [what] |} in
  match outcome with
  | Return a => (Return a, change w)
  | Raise e => (Raise e, w)
  end.

Definition outcome_of (raises : option exn) : result unit :=
  match raises with
  | Some e => Raise e
  | None => Return tt
  end.

Definition set_zc_open (b : bool) (w : world) : world :=
  {| zc_open := b; browsing := browsing w; log := log w |}.
Definition set_browsing (b : bool) (w : world) : world :=
  {| zc_open := zc_open w; browsing := b; log := log w |}.

Definition Zeroconf (e : env) : M world unit :=
  call NewZeroconf (outcome_of (zeroconf_raises e)) (set_zc_open true).
Definition ServiceBrowser (e : env) (stype : string) : M world unit :=
  call (NewServiceBrowser stype) (outcome_of (browser_raises e)) (set_browsing true).
Definition time_sleep (e : env) (secs : Z) : M world unit :=
  call (Sleep secs) (outcome_of (sleep_raises e)) id.
Definition browser_cancel (e : env) : M world unit :=
  call BrowserCancel (outcome_of (cancel_raises e)) (set_browsing false).
Definition zeroconf_close (e : env) : M world unit :=
  call ZeroconfClose (outcome_of (close_raises e)) (set_zc_open false).
Definition requests_post (e : env) (url data : string) : M world response :=
  call (HttpPost url data) (post_reply e url data) id.
Definition print (msg : string) : M world unit :=
  call (Print msg) (Return tt) id.
Definition sys_exit {A} (code : Z) : M world A := raise (SystemExit code).

(** [try: body except FreeboxError as e: handler(e.message)] *)
Definition try_except_FreeboxError {A} (body : M world A)
    (handler : string -> M world A) : M world A := fun w =>
  match body w with
  | (Raise (FreeboxError message), w') => handler message w'
  | r => r
  end.

(** The browser thread: it runs the listener's callback once per service
    announced; an exception raised by a callback stays in that thread. *)
Fixpoint browser_thread {S} (add_service : option ServiceInfo -> M S unit)
    (calls : list (option ServiceInfo)) (s : S) : S :=
  match calls with
  | [] => s
  | info :: calls' => browser_thread add_service calls' (add_service info s).2
  end.

End World.

Import World.

(** ** class Freebox of [freebox.py] and [fbx.py]

    From [__init__] to the end of the class the two files hold the same text;
    they differ in the class body before it: [freebox.py] declares the nested
    class [MDNSListener], [fbx.py] does not.  The methods are embedded once,
    [__init__] taking the class it belongs to. *)

Module Freebox.

Definition _TYPE : string := "_fbx-api._tcp.local.".

(** An instance: [self._properties].  *)
Record t : Type := { _properties : gmap string value }.

(** [@property properties] *)
Definition properties (self : t) : gmap string value := _properties self.

(** A listener class, through its one method: the callback gets the answer
    of [zeroconf.get_service_info(stype, name)] and acts on the properties
    of the Freebox it was built with. *)
Definition listener : Type := option ServiceInfo -> M (gmap string value) unit.

(** The class object, as far as attribute lookup on it goes. *)
Record class : Type := {
  __name__ : string;
  MDNSListener : option listener;
}.

(** [Freebox.MDNSListener] *)
Definition getattr_MDNSListener (cls : class) : result listener :=
  match MDNSListener cls with
  | Some l => Return l
  | None => Raise (AttributeError (__name__ cls) "MDNSListener")
  end.

Definition not_found : string :=
  "Fatal: Unable to find a Freebox on the local network!".

Definition __init__ (cls : class) (e : env) : M world t :=
  _mdns_listener ← lift (getattr_MDNSListener cls);
  let _properties : gmap string value := ∅ in
  Zeroconf e ;;
  ServiceBrowser e _TYPE ;;
  time_sleep e 2 ;;
  let _properties := browser_thread _mdns_listener (callbacks e) _properties in
  browser_cancel e ;;
  zeroconf_close e ;;
  if (size _properties =? 0)%nat
  then raise (FreeboxError not_found)
  else mret {| _properties := _properties |}.

(** [d[key]] *)
Definition getitem (d : gmap string value) (key : string) : result value :=
  match d !! key with
  | Some v => Return v
  | None => Raise (KeyError key)
  end.

(** [s + v] for a string [s] *)
Definition str_add (s : string) (v : value) : result string :=
  match v with
  | VStr s' => Return (s +:+ s')
  | _ => Raise TypeError
  end.

(** [v.split(".")] *)
Definition split_dot (v : value) : result (list string) :=
  match v with
  | VStr s => Return (split "." s)
  | VNone => Raise (AttributeError "NoneType" "split")
  | VInt _ => Raise (AttributeError "int" "split")
  | VTuple _ _ => Raise (AttributeError "tuple" "split")
  end.

Definition _full_api_url (self : t) (api_url : string) : result string :=
  api_domain ← getitem (properties self) "api_domain";
  url ← str_add "https://" api_domain;
  api_base_url ← getitem (properties self) "api_base_url";
  url ← str_add url api_base_url;
  let url := url +:+ "v" in
  api_version ← getitem (properties self) "api_version";
  parts ← split_dot api_version;
  major ← index parts 0;
  let url := url +:+ major in
  Return (url +:+ api_url).

(** The dictionary [data] of [register]. *)
Definition register_data (e : env) (app_name app_version : string)
    : list (string * string) :=
  [ ("app_id", "fr.freebox." +:+ lower app_name);
    ("app_name", app_name);
    ("app_version", app_version);
    ("device_name", platform_node e) ]%string.

Definition register (self : t) (e : env) (app_name app_version : string)
    : M world value :=
  url ← lift (_full_api_url self "/login/authorize/");
  let data := register_data e app_name app_version in
  let ssl_dir := dirname (script_realpath e) +:+ "/ssl" in
  r ← requests_post e url (json_dumps data);
  mret VNone.

Definition get_metrics (self : t) : M world value := mret VNone.
Definition push_metrics (self : t) : M world value := mret VNone.
Definition print_metrics (self : t) : M world value := mret VNone.

End Freebox.

(** ** [freebox.py] *)

Module freebox.

Module MDNSListener.

(** [str(info.address[i])] *)
Definition octet (address : option (list byte)) (i : nat) : result string :=
  match address with
  | None => Raise TypeError
  | Some bs => b ← index bs i; Return (str_of_N (Byte.to_N b))
  end.

(** [self._freebox.properties[key] = v] *)
Definition setitem (key : string) (v : value) : M (gmap string value) unit :=
  modify (insert key v).

(** [value.decode()] *)
Definition decode_value (v : txt_value) : result string :=
  match v with
  | TxtBytes bs => decode bs
  | TxtNone => Raise (AttributeError "NoneType" "decode")
  | TxtBool _ => Raise (AttributeError "bool" "decode")
  end.

Definition add_service (info : option ServiceInfo)
    : M (gmap string value) unit :=
  match info with
  | None => mret tt
  | Some info =>
      setitem "name" (VStr (name info)) ;;
      setitem "type" (VStr (type info)) ;;
      setitem "server" (VStr (server info)) ;;
      setitem "port" (VInt (port info)) ;;
      a0 ← lift (octet (address info) 0);
      a1 ← lift (octet (address info) 1);
      a2 ← lift (octet (address info) 2);
      a3 ← lift (octet (address info) 3);
      setitem "address" (VStr (a0 +:+ "." +:+ a1 +:+ "." +:+ a2 +:+ "." +:+ a3)) ;;
      for_each (World.properties info) (fun kv =>
        v ← lift (decode_value kv.2);
        k ← lift (decode kv.1);
        setitem k (VStr v))
  end.

End MDNSListener.

Definition Freebox : Freebox.class :=
  {| Freebox.__name__ := "Freebox";
     Freebox.MDNSListener := Some MDNSListener.add_service |}.

End freebox.

(** ** [fbx.py] *)

Module fbx.

(** The class body declares [_TYPE], the methods and the property; there is
    no [MDNSListener] in it. *)
Definition Freebox : Freebox.class :=
  {| Freebox.__name__ := "Freebox"; Freebox.MDNSListener := None |}.

End fbx.

(** ** [freeprobe.py] *)

Module freeprobe.

Module MDNSListener.

(** [self._info = zeroconf.get_service_info(stype, name)] *)
Definition add_service (info : option ServiceInfo)
    : M (option ServiceInfo) unit :=
  modify (fun _ => info).

End MDNSListener.

Module Freebox.

Definition _TYPE : string := "_fbx-api._tcp.local.".

(** An instance: [self._mdns_listener.svc_info]. *)
Record t : Type := { svc_info : option ServiceInfo }.

Definition __init__ (e : env) : M world t :=
  let _info : option ServiceInfo := None in
  Zeroconf e ;;
  ServiceBrowser e _TYPE ;;
  time_sleep e 5 ;;
  let _info := browser_thread MDNSListener.add_service (callbacks e) _info in
  browser_cancel e ;;
  zeroconf_close e ;;
  match _info with
  | None => raise (FreeboxError "Fatal: Unable to find a Freebox on the local network!")
  | Some _ => mret {| svc_info := _info |}
  end.

(** The read-only properties.  Each of the thirteen bodies tests
    [self._mdns_listener.svc_info] and returns [None] or that same object. *)
Definition name (self : t) : option ServiceInfo :=
  match svc_info self with
  | None => None
  | Some _ => svc_info self
  end.
Definition addresses (self : t) : option ServiceInfo :=
  match svc_info self with
  | None => None
  | Some _ => svc_info self
  end.
Definition port (self : t) : option ServiceInfo :=
  match svc_info self with
  | None => None
  | Some _ => svc_info self
  end.
Definition server (self : t) : option ServiceInfo :=
  match svc_info self with
  | None => None
  | Some _ => svc_info self
  end.
Definition api_version (self : t) : option ServiceInfo :=
  match svc_info self with
  | None => None
  | Some _ => svc_info self
  end.
Definition device_type (self : t) : option ServiceInfo :=
  match svc_info self with
  | None => None
  | Some _ => svc_info self
  end.
Definition api_base_url (self : t) : option ServiceInfo :=
  match svc_info self with
  | None => None
  | Some _ => svc_info self
  end.
Definition uid (self : t) : option ServiceInfo :=
  match svc_info self with
  | None => None
  | Some _ => svc_info self
  end.
Definition api_domain (self : t) : option ServiceInfo :=
  match svc_info self with
  | None => None
  | Some _ => svc_info self
  end.
Definition https_available (self : t) : option ServiceInfo :=
  match svc_info self with
  | None => None
  | Some _ => svc_info self
  end.
Definition https_port (self : t) : option ServiceInfo :=
  match svc_info self with
  | None => None
  | Some _ => svc_info self
  end.
Definition box_model (self : t) : option ServiceInfo :=
  match svc_info self with
  | None => None
  | Some _ => svc_info self
  end.
Definition box_model_name (self : t) : option ServiceInfo :=
  match svc_info self with
  | None => None
  | Some _ => svc_info self
  end.

(** All of them, in the order of the class body. *)
Definition getters : list (t -> option ServiceInfo) :=
  [name; addresses; port; server; api_version; device_type; api_base_url; uid;
   api_domain; https_available; https_port; box_model; box_model_name].

End Freebox.

Definition main (e : env) : M world unit :=
  freebox ← try_except_FreeboxError (Freebox.__init__ e)
              (fun message => print message ;; sys_exit 1);
  mret tt.

End freeprobe.

(** ** [fbxmetrics.py] *)

Module fbxmetrics.

Definition __version__ : string := "0.0.1".
Definition APP_NAME : string := "FreeProbe".

(** The parsed command line. *)
Record Namespace : Type := { register : bool; dry_run : bool }.

(** [main], from the construction of the Freebox on; the class is the one
    imported from [fbx]. *)
Definition main (args : Namespace) (e : env) : M world unit :=
  freebox ← try_except_FreeboxError (Freebox.__init__ fbx.Freebox e)
              (fun message => print message ;; sys_exit 1);
  if register args then
    try_except_FreeboxError
      (Freebox.register freebox e APP_NAME __version__ ;; mret tt)
      (fun message => print message ;; sys_exit 1)
  else
    try_except_FreeboxError
      (Freebox.get_metrics freebox ;; mret tt)
      (fun message => print message ;; sys_exit 1).

End fbxmetrics.

(** ** Vocabulary of the statements *)

(** The part of [s] before the first [sep], all of [s] when there is none. *)
Fixpoint before (sep : ascii) (s : string) : string :=
  match s with
  | EmptyString => EmptyString
  | String c s' => if Ascii.eqb c sep then EmptyString else String c (before sep s')
  end.

(** [https://{api_domain}{api_base_url}v{major}] *)
Definition base_url (api_domain api_base_url api_version : string) : string :=
  "https://" +:+ api_domain +:+ api_base_url +:+ "v" +:+ before "." api_version.

(** *** Text *)






(** A text between quotes. *)
Definition quoted (s : string) : string :=
  String (ascii_of_N 34) (s +:+ String (ascii_of_N 34) EmptyString).


(** *** Discovery *)

(** No call of the discovery session raises. *)
Definition quiet (e : env) : Prop :=
  zeroconf_raises e = None /\ browser_raises e = None /\ sleep_raises e = None
  /\ cancel_raises e = None /\ close_raises e = None.

(** Some callback of the browser thread got a resolved record. *)
Definition resolved (e : env) : Prop := exists info, In (Some info) (callbacks e).

(** The discovery session has been released. *)
Definition released (w : world) : Prop := zc_open w = false /\ browsing w = false.

(** The calls of a discovery session that runs to its end. *)
Definition session (secs : Z) : list effect :=
  [NewZeroconf; NewServiceBrowser Freebox._TYPE; Sleep secs; BrowserCancel; ZeroconfClose].

(** The world after such a session. *)
Definition after_session (secs : Z) (w : world) : world :=
  {| zc_open := false; browsing := false; log := log w ++ session secs |}.

(** The world after one more call that changes nothing else. *)
Definition logged (x : effect) (w : world) : world :=
  {| zc_open := zc_open w; browsing := browsing w; log := log w ++ [x] |}.

Definition is_write (x : effect) : bool :=
  match x with FileWrite _ _ _ => true | _ => false end.


(** A property of the state that a computation keeps. *)
Definition preserves {S A} (P : S -> Prop) (m : M S A) : Prop :=
  forall s, P s -> P (m s).2.

(** Every value but the port is a string. *)
Definition str_valued (d : gmap string value) : Prop :=
  forall k v, k <> "port"%string -> d !! k = Some v -> exists s, v = VStr s.

(** The keys that [add_service] of [freebox.py] stores from the record
    itself, before the TXT entries. *)
Definition builtin_keys : list string :=
  ["name"; "type"; "server"; "port"; "address"]%string.

(** The first four of them, stored before the address is read. *)
Definition early_keys : list string := ["name"; "type"; "server"; "port"]%string.

(** [str(b0) + "." + str(b1) + "." + str(b2) + "." + str(b3)] *)
Definition dotted (b0 b1 b2 b3 : byte) : string :=
  str_of_N (Byte.to_N b0) +:+ "." +:+ str_of_N (Byte.to_N b1) +:+ "."
  +:+ str_of_N (Byte.to_N b2) +:+ "." +:+ str_of_N (Byte.to_N b3).

(** The properties after the four early assignments. *)
Definition with_early (info : ServiceInfo) (d : gmap string value) : gmap string value :=
  <["port"%string := VInt (port info)]>
    (<["server"%string := VStr (server info)]>
       (<["type"%string := VStr (type info)]>
          (<["name"%string := VStr (name info)]> d))).

(** One TXT entry as text: the value is decoded first, then the key. *)
Definition decode_entry (kv : list byte * txt_value) : result (string * string) :=
  v ← freebox.MDNSListener.decode_value kv.2;
  k ← decode kv.1;
  Return (k, v).

(** All the entries of a TXT record as text, or the first exception. *)
Fixpoint decode_all (txt : list (list byte * txt_value)) : result (list (string * string)) :=
  match txt with
  | [] => Return []
  | kv :: txt' =>
      x ← decode_entry kv;
      xs ← decode_all txt';
      Return (x :: xs)
  end.

(** Decoded entries stored one after the other. *)
Definition store (kvs : list (string * string)) (d : gmap string value)
    : gmap string value :=
  foldl (fun m kv => <[kv.1 := VStr kv.2]> m) d kvs.

(** The value of the last entry with key [k]. *)
Definition assoc_last (k : string) (kvs : list (string * string)) : option string :=
  foldl (fun acc kv => if decide (kv.1 = k) then Some kv.2 else acc) None kvs.

(** The first exception of the session calls that follow [Zeroconf()]. *)
Definition raises_after_open (e : env) : option exn :=
  match browser_raises e, sleep_raises e, cancel_raises e, close_raises e with
  | Some x, _, _, _ => Some x
  | None, Some x, _, _ => Some x
  | None, None, Some x, _ => Some x
  | None, None, None, r => r
  end.



(** ** Sample records and environments *)

Module Sample.

Definition b (s : string) : list byte := list_byte_of_string s.

(** A Freebox Server as it announces itself. *)
Definition box_info : ServiceInfo :=
  {| name := "Freebox Server._fbx-api._tcp.local.";
     type := "_fbx-api._tcp.local.";
     server := "Freebox-Server.local.";
     port := 80;
     address := Some [xc0; xa8; x00; xfe]%byte;
     properties :=
       [ (b "api_version", TxtBytes (b "8.1"));
         (b "device_type", TxtBytes (b "FreeboxServer7,1"));
         (b "api_base_url", TxtBytes (b "/api/"));
         (b "uid", TxtBytes (b "x"));
         (b "api_domain", TxtBytes (b "mafreebox.freebox.fr")) ] |}.

(** A resolved record without any TXT entry. *)
Definition bare : ServiceInfo :=
  {| name := "Freebox Server._fbx-api._tcp.local.";
     type := "_fbx-api._tcp.local.";
     server := "Freebox-Server.local.";
     port := 80;
     address := Some [xc0; xa8; x00; xfe]%byte;
     properties := [] |}.

(** A device that accepts the authorize POST and answers [granted] to the
    [n]-th poll, [pending] to the polls before it. *)
Definition device (n : nat) (calls : list (option ServiceInfo)) : env :=
  {| zeroconf_raises := None; browser_raises := None; sleep_raises := None;
     cancel_raises := None; close_raises := None;
     callbacks := calls;
     platform_node := "probe";
     script_realpath := "/opt/fbxmetrics/fbxmetrics.py";
     post_reply := fun _ _ =>
       Return {| status_code := 200;
                 text := json_dumps [("app_token", "tok"); ("track_id", "42")]%string |};
     get_reply := fun k _ =>
       Return {| status_code := 200;
                 text := json_dumps
                   [("status", if (S k <? n)%nat then "pending" else "granted")]%string |} |}.

(** Ctrl-C while [__init__] sleeps. *)
Definition interrupted (calls : list (option ServiceInfo)) : env :=
  {| zeroconf_raises := None; browser_raises := None;
     sleep_raises := Some KeyboardInterrupt;
     cancel_raises := None; close_raises := None;
     callbacks := calls;
     platform_node := "probe";
     script_realpath := "/opt/fbxmetrics/fbxmetrics.py";
     post_reply := fun _ _ => Raise ConnectionError;
     get_reply := fun _ _ => Raise ConnectionError |}.

(** The properties that [freebox.py] collects from [box_info]. *)
Definition server_properties : gmap string value :=
  browser_thread freebox.MDNSListener.add_service [Some box_info] ∅.

Definition box : Freebox.t := {| Freebox._properties := server_properties |}.

(** The instance that [freebox.py] builds from [bare]. *)
Definition bare_box : Freebox.t :=
  {| Freebox._properties :=
       browser_thread freebox.MDNSListener.add_service [Some bare] ∅ |}.

(** The keys that the specification requires of a usable descriptor. *)
Definition required_keys : list string :=
  ["api_version"; "api_base_url"; "api_domain"; "device_type"; "uid"]%string.

(** A record whose address holds two bytes only. *)
Definition short_address : ServiceInfo :=
  {| name := "Freebox Server._fbx-api._tcp.local.";
     type := "_fbx-api._tcp.local.";
     server := "Freebox-Server.local.";
     port := 80;
     address := Some [xc0; xa8]%byte;
     properties := [ (b "api_domain", TxtBytes (b "mafreebox.freebox.fr")) ] |}.

(** A record with a sixteen-byte address, a TXT entry named [port] and a
    repeated key. *)
Definition long_address : ServiceInfo :=
  {| name := "Freebox Server._fbx-api._tcp.local.";
     type := "_fbx-api._tcp.local.";
     server := "Freebox-Server.local.";
     port := 80;
     address := Some [x0a; x00; x00; x01; x00; x00; x00; x00;
                      x00; x00; x00; x00; x00; x00; x00; x01]%byte;
     properties := [ (b "uid", TxtBytes (b "x"));
                     (b "port", TxtBytes (b "8080"));
                     (b "uid", TxtBytes (b "y")) ] |}.

(** A record whose second TXT entry has no value to decode. *)
Definition flag_entry : ServiceInfo :=
  {| name := "Freebox Server._fbx-api._tcp.local.";
     type := "_fbx-api._tcp.local.";
     server := "Freebox-Server.local.";
     port := 80;
     address := Some [xc0; xa8; x00; xfe]%byte;
     properties := [ (b "api_version", TxtBytes (b "8.1"));
                     (b "https_available", TxtBool true);
                     (b "api_domain", TxtBytes (b "mafreebox.freebox.fr")) ] |}.

(** No network interface: [Zeroconf()] raises. *)
Definition no_network : env :=
  {| zeroconf_raises := Some OSError; browser_raises := None; sleep_raises := None;
     cancel_raises := None; close_raises := None;
     callbacks := [];
     platform_node := "probe";
     script_realpath := "/opt/fbxmetrics/fbxmetrics.py";
     post_reply := fun _ _ => Raise ConnectionError;
     get_reply := fun _ _ => Raise ConnectionError |}.

(** A device that cannot be reached over HTTP. *)
Definition unreachable : env :=
  {| zeroconf_raises := None; browser_raises := None; sleep_raises := None;
     cancel_raises := None; close_raises := None;
     callbacks := [];
     platform_node := "probe";
     script_realpath := "/opt/fbxmetrics/fbxmetrics.py";
     post_reply := fun _ _ => Raise ConnectionError;
     get_reply := fun _ _ => Raise ConnectionError |}.

End Sample.

(** * Properties *)

Example split_version : split "." "8.1" = ["8"; "1"]%string.
Proof. reflexivity. Qed.

(** ** Strings *)

Lemma append_assoc (a b c : string) : (a +:+ b) +:+ c = a +:+ (b +:+ c).
Proof.
  induction a as [|x a IH]; [reflexivity|].
  change (String x ((a +:+ b) +:+ c) = String x (a +:+ (b +:+ c))).
  now f_equal.
Qed.

Lemma split_nonempty (sep : ascii) (s : string) : split sep s <> [].
Proof.
  destruct s as [|c s]; simpl; [discriminate|].
  destruct (Ascii.eqb c sep); [discriminate|].
  destruct (split sep s); discriminate.
Qed.

(** The first piece of a split is the text before the first separator. *)
Lemma split_head (sep : ascii) (s : string) :
  head (split sep s) = Some (before sep s).
Proof.
  induction s as [|c s IH]; simpl; [reflexivity|].
  destruct (Ascii.eqb c sep); simpl; [reflexivity|].
  destruct (split sep s) as [|piece rest]; simpl in *; [discriminate|].
  now inversion IH.
Qed.

Lemma index_split_0 (sep : ascii) (s : string) :
  index (split sep s) 0 = Return (before sep s).
Proof.
  unfold index. pose proof (split_head sep s) as H.
  destruct (split sep s); simpl in *; [discriminate|]. now inversion H.
Qed.

Example major_8_1 : before "." "8.1" = "8"%string.
Proof. reflexivity. Qed.

Example major_without_dot : before "." "8" = "8"%string.
Proof. reflexivity. Qed.

(** ** [_full_api_url] *)

Section FullApiUrl.

Variable self : Freebox.t.
Variables d b v : string.
Hypothesis Hd : Freebox.properties self !! "api_domain"%string = Some (VStr d).
Hypothesis Hb : Freebox.properties self !! "api_base_url"%string = Some (VStr b).
Hypothesis Hv : Freebox.properties self !! "api_version"%string = Some (VStr v).

Lemma full_api_url_str (p : string) :
  Freebox._full_api_url self p = Return (base_url d b v +:+ p).
Proof.
  unfold Freebox._full_api_url, Freebox.getitem.
  rewrite Hd, Hb, Hv. cbn [mbind result_bind Freebox.str_add Freebox.split_dot].
  rewrite index_split_0. cbn [mbind result_bind]. unfold base_url.
  now rewrite !append_assoc.
Qed.

End FullApiUrl.

(** The URL reads the three keys and nothing else. *)
Lemma full_api_url_reads (self self' : Freebox.t) (p : string) :
  (forall k, k ∈ ["api_domain"; "api_base_url"; "api_version"]%string ->
             Freebox.properties self !! k = Freebox.properties self' !! k) ->
  Freebox._full_api_url self p = Freebox._full_api_url self' p.
Proof.
  intros H. unfold Freebox._full_api_url, Freebox.getitem.
  rewrite !H by (repeat constructor). reflexivity.
Qed.

(** ** Invariants of effectful code *)

Section Preserves.

Context {S : Type} (P : S -> Prop).

Lemma preserves_ret {A} (a : A) : preserves P (mret a : M S A).
Proof. intros s Hs. exact Hs. Qed.

Lemma preserves_lift {A} (r : result A) : preserves P (lift r : M S A).
Proof. intros s Hs. exact Hs. Qed.

Lemma preserves_bind {A B} (m : M S A) (k : A -> M S B) :
  preserves P m -> (forall a, preserves P (k a)) -> preserves P (m ≫= k).
Proof.
  intros Hm Hk s Hs. specialize (Hm s Hs).
  unfold mbind, M_bind. destruct (m s) as [[a|e] s']; simpl in *.
  - now apply Hk.
  - exact Hm.
Qed.

Lemma preserves_for_each {A} (l : list A) (body : A -> M S unit) :
  (forall x, preserves P (body x)) -> preserves P (for_each l body).
Proof.
  intros Hbody. induction l as [|x l IH]; simpl.
  - apply preserves_ret.
  - apply preserves_bind; [apply Hbody | intros _; exact IH].
Qed.

(** What every callback keeps, the browser thread keeps. *)
Lemma preserves_browser_thread (add_service : option ServiceInfo -> M S unit)
    (calls : list (option ServiceInfo)) :
  (forall info, preserves P (add_service info)) ->
  forall s, P s -> P (browser_thread add_service calls s).
Proof.
  intros Hcb. induction calls as [|info calls IH]; simpl; intros s Hs.
  - exact Hs.
  - apply IH. now apply Hcb.
Qed.

End Preserves.

Create HintDb preserves.
#[local] Hint Resolve preserves_ret preserves_lift preserves_for_each : preserves.

Ltac preserves_steps :=
  repeat first
    [ apply preserves_bind; [| intro]
    | apply preserves_for_each; intro
    | solve [auto with preserves] ].

(** ** The listener of [freebox.py] *)

Section AddService.

Import freebox.MDNSListener.

Variable P : gmap string value -> Prop.
Hypothesis P_str : forall k s, preserves P (setitem k (VStr s)).
Hypothesis P_port : forall n, preserves P (setitem "port" (VInt n)).

(** A property kept by the assignments of [add_service] is kept by it. *)
Lemma add_service_preserves (info : option ServiceInfo) :
  preserves P (add_service info).
Proof using P_str P_port.
  destruct info as [info|]; unfold add_service; preserves_steps.
Qed.

(** With a resolved record, the property holds from the first assignment
    on, whatever follows. *)
Lemma add_service_establishes (info : ServiceInfo) (s : gmap string value) :
  P (<["name"%string := VStr (name info)]> s) ->
  P (add_service (Some info) s).2.
Proof using P_str P_port.
  intros H. unfold add_service.
  match goal with
  | |- P ((setitem ?k ?v ≫= ?rest) s).2 =>
      change (P (rest tt (<[k := v]> s)).2);
      assert (Hrest : preserves P (rest tt)) by preserves_steps
  end.
  now apply Hrest.
Qed.

End AddService.

Lemma setitem_nonempty (k : string) (v : value) :
  preserves (fun d => d <> ∅) (freebox.MDNSListener.setitem k v).
Proof. intros d _. apply insert_non_empty. Qed.

Lemma setitem_str_valued (k s : string) :
  preserves str_valued (freebox.MDNSListener.setitem k (VStr s)).
Proof.
  intros d Hd k' v' Hne. unfold freebox.MDNSListener.setitem, modify. simpl.
  destruct (decide (k = k')) as [->|Hk].
  - rewrite lookup_insert_eq. intros [= <-]. eauto.
  - rewrite lookup_insert_ne by exact Hk. now apply Hd.
Qed.

Lemma setitem_port_str_valued (n : Z) :
  preserves str_valued (freebox.MDNSListener.setitem "port" (VInt n)).
Proof.
  intros d Hd k' v' Hne. unfold freebox.MDNSListener.setitem, modify. simpl.
  rewrite lookup_insert_ne by congruence. now apply Hd.
Qed.

(** An unresolved answer leaves the properties alone. *)
Lemma add_service_unresolved (d : gmap string value) :
  (freebox.MDNSListener.add_service None d).2 = d.
Proof. reflexivity. Qed.

(** The properties are empty after the browser thread exactly when they were
    empty before it and no callback got a resolved record. *)
Lemma browser_thread_empty (calls : list (option ServiceInfo)) (d : gmap string value) :
  browser_thread freebox.MDNSListener.add_service calls d = ∅
  <-> d = ∅ /\ ~ exists info, In (Some info) calls.
Proof.
  revert d. induction calls as [|[info|] calls IH]; intros d; simpl.
  - split; [intros ->; split; [reflexivity | intros [? []]] | now intros [-> _]].
  - split.
    + intros H. exfalso. revert H.
      apply (preserves_browser_thread (fun d => d <> ∅)).
      * apply add_service_preserves; auto using setitem_nonempty.
      * apply (add_service_establishes (fun d => d <> ∅));
          auto using setitem_nonempty. apply insert_non_empty.
    + intros [_ H]. exfalso. apply H. eauto.
  - rewrite IH. simpl. split; intros [Hd H]; (split; [exact Hd|]).
    + intros [info [Heq|Hin]]; [discriminate | apply H; eauto].
    + intros [info Hin]. apply H. eauto.
Qed.

(** Every property collected by the browser thread, the port apart, is a
    string. *)
Lemma browser_thread_str_valued (calls : list (option ServiceInfo)) :
  str_valued (browser_thread freebox.MDNSListener.add_service calls ∅).
Proof.
  apply (preserves_browser_thread str_valued).
  - intros info. apply add_service_preserves;
      auto using setitem_str_valued, setitem_port_str_valued.
  - intros k v _ H. now rewrite lookup_empty in H.
Qed.

(** ** Discovery: [__init__] *)

(** A session in which no call raises runs its five calls and leaves nothing
    open. *)
Lemma session_quiet {A} (e : env) (secs : Z) (k : M world A) (w : world) :
  quiet e ->
  (Zeroconf e ;; ServiceBrowser e Freebox._TYPE ;; time_sleep e secs ;;
   browser_cancel e ;; zeroconf_close e ;; k) w
  = k (after_session secs w).
Proof.
  intros (Hz & Hb & Hs & Hc & Hx).
  unfold Zeroconf, ServiceBrowser, time_sleep, browser_cancel, zeroconf_close.
  rewrite Hz, Hb, Hs, Hc, Hx.
  unfold mbind, M_bind, call, outcome_of, after_session, session; simpl.
  now rewrite <- !app_assoc.
Qed.

Lemma init_quiet (cls : Freebox.class) (l : Freebox.listener) (e : env) (w : world) :
  quiet e -> Freebox.MDNSListener cls = Some l ->
  Freebox.__init__ cls e w
  = (let d := browser_thread l (callbacks e) ∅ in
     if (size d =? 0)%nat then Raise (FreeboxError Freebox.not_found)
     else Return {| Freebox._properties := d |},
     after_session 2 w).
Proof.
  intros Hq Hl. unfold Freebox.__init__, Freebox.getattr_MDNSListener.
  rewrite Hl.
  change (lift (Return l) ≫= ?k) with (k l). cbv beta zeta.
  rewrite (session_quiet e 2 _ w Hq).
  destruct (size _ =? 0)%nat; reflexivity.
Qed.

Lemma freeprobe_init_quiet (e : env) (w : world) :
  quiet e ->
  freeprobe.Freebox.__init__ e w
  = (match browser_thread freeprobe.MDNSListener.add_service (callbacks e) None with
     | None => Raise (FreeboxError Freebox.not_found)
     | Some info => Return {| freeprobe.Freebox.svc_info := Some info |}
     end,
     after_session 5 w).
Proof.
  intros Hq. unfold freeprobe.Freebox.__init__. cbv zeta.
  rewrite (session_quiet e 5 _ w Hq).
  destruct (browser_thread _ _ _); reflexivity.
Qed.

(** Whether a callback got a resolved record can be told from the list. *)
Lemma classic_resolved (e : env) : resolved e \/ ~ resolved e.
Proof.
  unfold resolved. induction (callbacks e) as [|[info|] calls IH].
  - right. intros [? []].
  - left. exists info. now left.
  - destruct IH as [[info H]|H].
    + left. exists info. now right.
    + right. intros [info [Heq|Hin]]; [discriminate | apply H; eauto].
Qed.

(** In [freebox.py] the instance is returned exactly when a callback got a
    resolved record; otherwise [FreeboxError] is raised. *)
Lemma freebox_init_found (e : env) (w : world) :
  quiet e -> resolved e ->
  exists self, Freebox.__init__ freebox.Freebox e w = (Return self, after_session 2 w).
Proof.
  intros Hq Hr. rewrite (init_quiet freebox.Freebox _ e w Hq eq_refl). cbv zeta.
  destruct (size _ =? 0)%nat eqn:E; [|eauto].
  apply Nat.eqb_eq, map_size_empty_iff, browser_thread_empty in E.
  now destruct E as [_ []].
Qed.

Lemma freebox_init_not_found (e : env) (w : world) :
  quiet e -> ~ resolved e ->
  Freebox.__init__ freebox.Freebox e w
  = (Raise (FreeboxError Freebox.not_found), after_session 2 w).
Proof.
  intros Hq Hr. rewrite (init_quiet freebox.Freebox _ e w Hq eq_refl). cbv zeta.
  assert (browser_thread freebox.MDNSListener.add_service (callbacks e) ∅ = ∅) as ->
    by now apply browser_thread_empty.
  reflexivity.
Qed.

(** The listener of [freeprobe.py] holds the answer to the last callback. *)
Lemma freeprobe_thread_last (calls : list (option ServiceInfo)) (i : option ServiceInfo) :
  browser_thread freeprobe.MDNSListener.add_service calls i
  = match last calls with Some x => x | None => i end.
Proof.
  revert i. induction calls as [|x calls IH]; intros i; simpl; [reflexivity|].
  rewrite IH. destruct calls as [|y calls]; [reflexivity|].
  change (last (x :: y :: calls)) with (last (y :: calls)).
  destruct (last (y :: calls)) eqn:E; [reflexivity|].
  now apply last_None in E.
Qed.

(** So [freeprobe.py] returns the instance exactly when the last callback
    got a resolved record. *)
Lemma freeprobe_init_last (e : env) (w : world) :
  quiet e ->
  (exists self, freeprobe.Freebox.__init__ e w = (Return self, after_session 5 w))
  <-> exists info, last (callbacks e) = Some (Some info).
Proof.
  intros Hq. rewrite (freeprobe_init_quiet e w Hq), freeprobe_thread_last.
  destruct (last (callbacks e)) as [[info|]|]; split;
    try (intros [? [=]]); eauto.
Qed.

Lemma freeprobe_init_not_found (e : env) (w : world) :
  quiet e -> ~ resolved e ->
  freeprobe.Freebox.__init__ e w
  = (Raise (FreeboxError Freebox.not_found), after_session 5 w).
Proof.
  intros Hq Hr. rewrite (freeprobe_init_quiet e w Hq), freeprobe_thread_last.
  destruct (last (callbacks e)) as [[info|]|] eqn:E; try reflexivity.
  exfalso. apply Hr. exists info. apply list_elem_of_In, last_Some_elem_of, E.
Qed.

(** [__init__] returns only after a session in which no call raised. *)
Lemma init_returns_quiet (cls : Freebox.class) (e : env) (w w' : world) (self : Freebox.t) :
  Freebox.__init__ cls e w = (Return self, w') -> quiet e.
Proof.
  unfold Freebox.__init__, Freebox.getattr_MDNSListener, quiet,
    Zeroconf, ServiceBrowser, time_sleep, browser_cancel, zeroconf_close.
  unfold mbind, M_bind, call, lift, outcome_of.
  destruct (Freebox.MDNSListener cls); [|intros [=]].
  destruct (zeroconf_raises e); [intros [=]|].
  destruct (browser_raises e); [intros [=]|].
  destruct (sleep_raises e); [intros [=]|].
  destruct (cancel_raises e); [intros [=]|].
  destruct (close_raises e); [intros [=]|].
  intros _. repeat split.
Qed.

(** The properties of an instance of [freebox.py] are those collected by the
    browser thread. *)
Lemma freebox_init_properties (e : env) (w w' : world) (self : Freebox.t) :
  Freebox.__init__ freebox.Freebox e w = (Return self, w') ->
  Freebox.properties self
  = browser_thread freebox.MDNSListener.add_service (callbacks e) ∅.
Proof.
  intros H. pose proof (init_returns_quiet _ _ _ _ _ H) as Hq.
  rewrite (init_quiet freebox.Freebox _ e w Hq eq_refl) in H. cbv zeta in H.
  destruct (size _ =? 0)%nat; [discriminate|]. now inversion H.
Qed.

(** *** The URL of an API call *)

(** C1. For every descriptor built by discovery whose properties hold the
    keys api_domain, api_base_url and api_version, the three values are
    strings and the URL built for a relative path p is "https://", then
    api_domain, api_base_url, "v", the part of api_version before its first
    ".", then p; the version "8.1" gives the segment "v8"; and any
    properties with the same three entries give the same URL. *)
Theorem full_api_url_of_descriptor
    (e : env) (w w' : world) (self : Freebox.t) (p : string) :
  Freebox.__init__ freebox.Freebox e w = (Return self, w') ->
  is_Some (Freebox.properties self !! "api_domain"%string) ->
  is_Some (Freebox.properties self !! "api_base_url"%string) ->
  is_Some (Freebox.properties self !! "api_version"%string) ->
  exists d b v : string,
    Freebox.properties self !! "api_domain"%string = Some (VStr d)
    /\ Freebox.properties self !! "api_base_url"%string = Some (VStr b)
    /\ Freebox.properties self !! "api_version"%string = Some (VStr v)
    /\ Freebox._full_api_url self p
       = Return ("https://" +:+ d +:+ b +:+ "v" +:+ before "." v +:+ p)
    /\ (v = "8.1"%string -> "v" +:+ before "." v = "v8"%string)
    /\ (forall self' : Freebox.t,
          (forall k, k ∈ ["api_domain"; "api_base_url"; "api_version"]%string ->
                     Freebox.properties self' !! k = Freebox.properties self !! k) ->
          Freebox._full_api_url self' p = Freebox._full_api_url self p).
Proof.
  intros Hinit [vd Hd] [vb Hb] [vv Hv].
  pose proof (browser_thread_str_valued (callbacks e)) as Hstr.
  rewrite <- (freebox_init_properties e w w' self Hinit) in Hstr.
  destruct (Hstr "api_domain"%string vd) as [d ->]; [discriminate | exact Hd |].
  destruct (Hstr "api_base_url"%string vb) as [b ->]; [discriminate | exact Hb |].
  destruct (Hstr "api_version"%string vv) as [v ->]; [discriminate | exact Hv |].
  exists d, b, v. repeat split; try assumption.
  - rewrite (full_api_url_str self d b v Hd Hb Hv p). unfold base_url.
    now rewrite !append_assoc.
  - now intros ->.
  - intros self' H. now apply full_api_url_reads.
Qed.

Lemma full_api_url_of_descriptor_witness :
  exists d b v : string,
    Freebox.properties Sample.box !! "api_domain"%string = Some (VStr d)
    /\ Freebox.properties Sample.box !! "api_base_url"%string = Some (VStr b)
    /\ Freebox.properties Sample.box !! "api_version"%string = Some (VStr v)
    /\ Freebox._full_api_url Sample.box "/login/authorize/"
       = Return ("https://" +:+ d +:+ b +:+ "v" +:+ before "." v +:+ "/login/authorize/")
    /\ (v = "8.1"%string -> "v" +:+ before "." v = "v8"%string)
    /\ (forall self' : Freebox.t,
          (forall k, k ∈ ["api_domain"; "api_base_url"; "api_version"]%string ->
                     Freebox.properties self' !! k = Freebox.properties Sample.box !! k) ->
          Freebox._full_api_url self' "/login/authorize/"
          = Freebox._full_api_url Sample.box "/login/authorize/").
Proof.
  apply (full_api_url_of_descriptor
           (Sample.device 1 [Some Sample.box_info]) initial (after_session 2 initial)).
  - vm_compute. reflexivity.
  - vm_compute. eexists. reflexivity.
  - vm_compute. eexists. reflexivity.
  - vm_compute. eexists. reflexivity.
Defined.

(** *** When construction succeeds *)

(** C2, as the code has it.  When no call of the discovery session raises,
    construction succeeds exactly when some callback of the browser thread
    got a resolved service record, whatever TXT entries the record holds;
    otherwise it raises FreeboxError.  No key is required and the version
    is not parsed at construction. *)
Theorem construction_succeeds_iff_resolved (e : env) (w : world) :
  quiet e ->
  ((exists self, Freebox.__init__ freebox.Freebox e w = (Return self, after_session 2 w))
   <-> resolved e)
  /\ (~ resolved e ->
      Freebox.__init__ freebox.Freebox e w
      = (Raise (FreeboxError Freebox.not_found), after_session 2 w)).
Proof.
  intros Hq. split; [split|].
  - intros [self H]. destruct (classic_resolved e) as [Hr|Hr]; [exact Hr|].
    rewrite (freebox_init_not_found e w Hq Hr) in H. discriminate.
  - now apply freebox_init_found.
  - now apply freebox_init_not_found.
Qed.

Lemma construction_succeeds_iff_resolved_witness :
  ((exists self,
      Freebox.__init__ freebox.Freebox (Sample.device 1 [Some Sample.bare]) initial
      = (Return self, after_session 2 initial))
   <-> resolved (Sample.device 1 [Some Sample.bare]))
  /\ (~ resolved (Sample.device 1 [Some Sample.bare]) ->
      Freebox.__init__ freebox.Freebox (Sample.device 1 [Some Sample.bare]) initial
      = (Raise (FreeboxError Freebox.not_found), after_session 2 initial)).
Proof.
  apply (construction_succeeds_iff_resolved
           (Sample.device 1 [Some Sample.bare]) initial).
  repeat split; reflexivity.
Defined.

(** C2 fails as stated: a resolved record without any TXT entry, so with none
    of the required keys, gives an instance all the same; the missing key
    shows only when a URL is built. *)
Lemma construction_without_required_keys :
  Freebox.__init__ freebox.Freebox (Sample.device 1 [Some Sample.bare]) initial
  = (Return Sample.bare_box, after_session 2 initial)
  /\ Forall (fun k => Freebox.properties Sample.bare_box !! k = None)
            Sample.required_keys
  /\ Freebox._full_api_url Sample.bare_box "/login/authorize/"
     = Raise (KeyError "api_domain").
Proof.
  split; [|split].
  - vm_compute. reflexivity.
  - repeat constructor; vm_compute; reflexivity.
  - vm_compute. reflexivity.
Qed.

(** *** Not found *)

(** C6, on [freeprobe.py]: a first callback gets a resolved record, a second
    one gets none.  The record was resolved within the wait and no call
    raised, yet the listener holds the last answer only and construction
    raises FreeboxError; [freebox.py] returns the instance on the same
    callbacks. *)
Theorem freeprobe_forgets_resolved_record :
  let e := Sample.device 1 [Some Sample.box_info; None] in
  quiet e /\ resolved e
  /\ freeprobe.Freebox.__init__ e initial
     = (Raise (FreeboxError Freebox.not_found), after_session 5 initial)
  /\ Freebox.__init__ freebox.Freebox e initial
     = (Return Sample.box, after_session 2 initial).
Proof.
  cbv zeta. split; [repeat split | split; [|split]].
  - exists Sample.box_info. now left.
  - vm_compute. reflexivity.
  - vm_compute. reflexivity.
Qed.

(** *** Teardown *)

(** C7, as the code has it.  On every return path on which no call of the
    discovery session raises (a record was found and the instance is
    returned, or none was and FreeboxError is raised) the session is released
    before control returns: the calls made are Zeroconf, ServiceBrowser,
    sleep, cancel, close in this order, and neither the browser nor the socket
    is left open.  This holds for [freebox.py] and for [freeprobe.py]. *)
Theorem session_released_when_quiet (e : env) (w : world) :
  quiet e ->
  let w2 := (Freebox.__init__ freebox.Freebox e w).2 in
  let w5 := (freeprobe.Freebox.__init__ e w).2 in
  released w2 /\ log w2 = log w ++ session 2
  /\ released w5 /\ log w5 = log w ++ session 5.
Proof.
  intros Hq. cbv zeta.
  rewrite (init_quiet freebox.Freebox _ e w Hq eq_refl).
  rewrite (freeprobe_init_quiet e w Hq).
  repeat split.
Qed.

Lemma session_released_when_quiet_witness :
  let w2 := (Freebox.__init__ freebox.Freebox (Sample.device 1 [None]) initial).2 in
  let w5 := (freeprobe.Freebox.__init__ (Sample.device 1 [None]) initial).2 in
  released w2 /\ log w2 = log initial ++ session 2
  /\ released w5 /\ log w5 = log initial ++ session 5.
Proof.
  apply (session_released_when_quiet (Sample.device 1 [None]) initial).
  repeat split; reflexivity.
Defined.

(** C7 fails as stated: when the sleep is interrupted the exception leaves
    [__init__] at once, with the browser subscribed and the socket open, in
    [freebox.py] and in [freeprobe.py] alike. *)
Lemma session_left_open_on_interrupt :
  let e := Sample.interrupted [Some Sample.box_info] in
  let w := {| zc_open := true; browsing := true;
              log := [NewZeroconf; NewServiceBrowser Freebox._TYPE; Sleep 2] |} in
  let w' := {| zc_open := true; browsing := true;
               log := [NewZeroconf; NewServiceBrowser Freebox._TYPE; Sleep 5] |} in
  Freebox.__init__ freebox.Freebox e initial = (Raise KeyboardInterrupt, w)
  /\ freeprobe.Freebox.__init__ e initial = (Raise KeyboardInterrupt, w')
  /\ ~ released w /\ ~ released w'.
Proof.
  cbv zeta. repeat split; try (vm_compute; reflexivity);
    intros [H _]; discriminate H.
Qed.

(** *** The class of [fbx.py] *)

(** C10. Whatever the environment, constructing the Freebox of [fbx.py]
    raises AttributeError on the lookup of Freebox.MDNSListener before any
    call of the discovery session is made; [main] of [fbxmetrics.py], which
    catches FreeboxError only, lets it through and reaches neither
    registration nor metric collection: the world is left as it was. *)
Theorem fbx_init_raises_attribute_error (e : env) (w : world) :
  Freebox.__init__ fbx.Freebox e w
  = (Raise (AttributeError "Freebox" "MDNSListener"), w)
  /\ forall args : fbxmetrics.Namespace,
       fbxmetrics.main args e w
       = (Raise (AttributeError "Freebox" "MDNSListener"), w).
Proof. split; [reflexivity | intros args; reflexivity]. Qed.

(** ** Registration *)

Section Register.

Variable self : Freebox.t.
Variable e : env.
Variables app_name app_version : string.
Variable url : string.
Hypothesis Hurl : Freebox._full_api_url self "/login/authorize/" = Return url.


End Register.

(** Without one of the three keys [register] raises before any call. *)
Lemma register_without_url (self : Freebox.t) (e : env)
    (app_name app_version : string) (x : exn) (w : world) :
  Freebox._full_api_url self "/login/authorize/" = Raise x ->
  Freebox.register self e app_name app_version w = (Raise x, w).
Proof. intros H. unfold Freebox.register. now rewrite H. Qed.


(** *** ASCII and plain text *)

Lemma append_empty_r (a : string) : a +:+ EmptyString = a.
Proof.
  induction a as [|x a IH]; [reflexivity|].
  change (String x (a +:+ EmptyString) = String x a). now f_equal.
Qed.























(** [str.lower] beyond ASCII: an accented capital, the capital I with dot,
    which gives two code points, and the capital sigma, final and not. *)
Example lower_accented : lower "Éa" = "éa"%string.
Proof. vm_compute. reflexivity. Qed.

Example lower_dotted_I : lower "İ" = "i̇"%string.
Proof. vm_compute. reflexivity. Qed.

Example lower_sigma : lower "ΟΔΟΣ ΣΟΦΙΑ" = "οδος σοφια"%string.
Proof. vm_compute. reflexivity. Qed.

Example app_id_accented :
  json_dumps [("app_id", "fr.freebox." +:+ lower "Éa")]%string
  = "{" +:+ quoted "app_id" +:+ ": " +:+ quoted "fr.freebox.\u00e9a" +:+ "}".
Proof. vm_compute. reflexivity. Qed.

Example app_id_of_FreeProbe :
  "fr.freebox." +:+ lower fbxmetrics.APP_NAME = "fr.freebox.freeprobe"%string.
Proof. reflexivity. Qed.




(** C4, at an input where the code falls short of it.  The device answers
    the authorize POST with a token and a track id.  [register], whose
    docstring says that it stores the received token in a secured file,
    returns None and not the pair, and its only call is the POST: no file is
    written, so there is no stored token for a later run to load. *)
Lemma register_returns_no_pair_and_writes_nothing :
  let r := Freebox.register Sample.box (Sample.device 1 []) "FreeProbe" "0.0.1" initial in
  r.1 = Return VNone
  /\ filter is_write (log r.2) = []
  /\ ~ (exists token track, r.1 = Return (VTuple (VStr token) (VInt track))).
Proof.
  cbv zeta. split; [|split].
  - vm_compute. reflexivity.
  - vm_compute. reflexivity.
  - intros (token & track & H). vm_compute in H. discriminate H.
Qed.

(** ** Metrics *)

(** C8, at an input where the code falls short of it.  [get_metrics], which
    the class docstring describes as getting the metrics from the freebox,
    has an empty body: whatever endpoints the device serves it queries none
    and returns None, which is no pair of samples and failure count. *)
Lemma get_metrics_collects_nothing :
  let r := Freebox.get_metrics Sample.box initial in
  r.1 = Return VNone
  /\ log r.2 = []
  /\ ~ (exists samples failures, r.1 = Return (VTuple samples failures)).
Proof.
  cbv zeta. split; [|split]; try reflexivity.
  intros (samples & failures & H). discriminate H.
Qed.

(** * Further properties of the code *)

(** ** What [add_service] of [freebox.py] stores *)

Lemma store_snoc (kvs : list (string * string)) (kv : string * string)
    (d : gmap string value) :
  store (kvs ++ [kv]) d = <[kv.1 := VStr kv.2]> (store kvs d).
Proof. unfold store. now rewrite foldl_app. Qed.

Lemma assoc_last_snoc (k : string) (kvs : list (string * string)) (kv : string * string) :
  assoc_last k (kvs ++ [kv])
  = if decide (kv.1 = k) then Some kv.2 else assoc_last k kvs.
Proof. unfold assoc_last. now rewrite foldl_app. Qed.

(** Reading back what was stored: the last entry with the key, else what
    was there before. *)
Lemma lookup_store (kvs : list (string * string)) (d : gmap string value) (k : string) :
  store kvs d !! k
  = match assoc_last k kvs with
    | Some v => Some (VStr v)
    | None => d !! k
    end.
Proof.
  induction kvs as [|kv kvs IH] using rev_ind; [reflexivity|].
  rewrite store_snoc, assoc_last_snoc.
  destruct (decide (kv.1 = k)) as [<-|Hne].
  - now rewrite lookup_insert_eq.
  - now rewrite lookup_insert_ne.
Qed.

(** The body of the loop over the TXT entries. *)
Lemma txt_entry_run (kv : list byte * txt_value) (d : gmap string value) :
  (v ← lift (freebox.MDNSListener.decode_value kv.2);
   k ← lift (decode kv.1);
   freebox.MDNSListener.setitem k (VStr v)) d
  = match decode_entry kv with
    | Return x => (Return tt, <[x.1 := VStr x.2]> d)
    | Raise x => (Raise x, d)
    end.
Proof.
  unfold decode_entry, mbind, M_bind, result_bind, lift.
  destruct (freebox.MDNSListener.decode_value kv.2); [|reflexivity].
  destruct (decode kv.1); reflexivity.
Qed.

Lemma store_cons (kv : string * string) (kvs : list (string * string))
    (d : gmap string value) :
  store (kv :: kvs) d = store kvs (<[kv.1 := VStr kv.2]> d).
Proof. reflexivity. Qed.

(** When every entry decodes the loop stores them all, in order. *)
Lemma txt_loop_all (txt : list (list byte * txt_value)) (kvs : list (string * string))
    (d : gmap string value) :
  decode_all txt = Return kvs ->
  for_each txt (fun kv =>
    v ← lift (freebox.MDNSListener.decode_value kv.2);
    k ← lift (decode kv.1);
    freebox.MDNSListener.setitem k (VStr v)) d
  = (Return tt, store kvs d).
Proof.
  revert kvs d. induction txt as [|kv txt IH]; intros kvs d H; simpl in *.
  - now inversion H.
  - unfold mbind at 1, M_bind at 1. rewrite txt_entry_run.
    unfold mbind, result_bind in H.
    destruct (decode_entry kv) as [x|]; [|discriminate].
    fold (@mbind result _) in H. unfold mbind, result_bind in H.
    destruct (decode_all txt) as [xs|] eqn:E; [|discriminate].
    inversion H; subst. rewrite store_cons. now apply IH.
Qed.

(** The loop stops at the first entry that does not decode: the entries
    before it are stored, that entry and those after it are not. *)
Lemma txt_loop_stops (good rest : list (list byte * txt_value))
    (bad : list byte * txt_value) (kvs : list (string * string)) (x : exn)
    (d : gmap string value) :
  decode_all good = Return kvs -> decode_entry bad = Raise x ->
  for_each (good ++ bad :: rest) (fun kv =>
    v ← lift (freebox.MDNSListener.decode_value kv.2);
    k ← lift (decode kv.1);
    freebox.MDNSListener.setitem k (VStr v)) d
  = (Raise x, store kvs d).
Proof.
  intros Hgood Hbad. revert kvs d Hgood.
  induction good as [|kv good IH]; intros kvs d H; simpl in *.
  - inversion H; subst. unfold mbind at 1, M_bind at 1.
    rewrite txt_entry_run, Hbad. reflexivity.
  - unfold mbind at 1, M_bind at 1. rewrite txt_entry_run.
    unfold mbind, result_bind in H.
    destruct (decode_entry kv) as [y|]; [|discriminate].
    fold (@mbind result _) in H. unfold mbind, result_bind in H.
    destruct (decode_all good) as [ys|] eqn:E; [|discriminate].
    inversion H; subst. rewrite store_cons. now apply IH.
Qed.

Lemma octet_run (bs : list byte) (i : nat) (x : byte) :
  bs !! i = Some x ->
  freebox.MDNSListener.octet (Some bs) i = Return (str_of_N (Byte.to_N x)).
Proof. intros H. unfold freebox.MDNSListener.octet, index. now rewrite H. Qed.

(** [add_service] from the assignment of the address on. *)
Lemma add_service_run (info : ServiceInfo) (b0 b1 b2 b3 : byte) (more : list byte)
    (d : gmap string value) :
  address info = Some (b0 :: b1 :: b2 :: b3 :: more) ->
  freebox.MDNSListener.add_service (Some info) d
  = for_each (World.properties info) (fun kv =>
      v ← lift (freebox.MDNSListener.decode_value kv.2);
      k ← lift (decode kv.1);
      freebox.MDNSListener.setitem k (VStr v))
      (<["address"%string := VStr (dotted b0 b1 b2 b3)]> (with_early info d)).
Proof.
  intros Ha. unfold freebox.MDNSListener.add_service. rewrite Ha.
  rewrite (octet_run _ 0 b0), (octet_run _ 1 b1), (octet_run _ 2 b2),
    (octet_run _ 3 b3) by reflexivity.
  reflexivity.
Qed.

(** X1. For a resolved record whose address holds at least four bytes and
    whose TXT entries all decode, [add_service] raises nothing, and
    afterwards a key named by a TXT entry holds the text of the last entry
    with that name (also when the key is name, type, server, port or
    address); otherwise name, type, server and port hold the fields of the
    record and address the dotted decimal of the first four bytes; every
    other key is as before. *)
Theorem add_service_stores_record (info : ServiceInfo) (b0 b1 b2 b3 : byte)
    (more : list byte) (kvs : list (string * string)) (d : gmap string value) :
  address info = Some (b0 :: b1 :: b2 :: b3 :: more) ->
  decode_all (World.properties info) = Return kvs ->
  (freebox.MDNSListener.add_service (Some info) d).1 = Return tt
  /\ forall k : string,
       (freebox.MDNSListener.add_service (Some info) d).2 !! k
       = match assoc_last k kvs with
         | Some v => Some (VStr v)
         | None =>
             if decide (k = "address"%string) then Some (VStr (dotted b0 b1 b2 b3))
             else if decide (k = "port"%string) then Some (VInt (port info))
             else if decide (k = "server"%string) then Some (VStr (server info))
             else if decide (k = "type"%string) then Some (VStr (type info))
             else if decide (k = "name"%string) then Some (VStr (name info))
             else d !! k
         end.
Proof.
  intros Ha Htxt.
  rewrite (add_service_run info b0 b1 b2 b3 more d Ha).
  rewrite (txt_loop_all _ kvs _ Htxt). split; [reflexivity|].
  intros k. cbn [snd]. rewrite lookup_store.
  destruct (assoc_last k kvs); [reflexivity|].
  unfold with_early. rewrite !lookup_insert.
  repeat (case_decide; subst; try congruence); reflexivity.
Qed.

Lemma add_service_stores_record_witness :
  (freebox.MDNSListener.add_service (Some Sample.long_address) ∅).1 = Return tt
  /\ forall k : string,
       (freebox.MDNSListener.add_service (Some Sample.long_address) ∅).2 !! k
       = match assoc_last k [("uid", "x"); ("port", "8080"); ("uid", "y")]%string with
         | Some v => Some (VStr v)
         | None =>
             if decide (k = "address"%string)
             then Some (VStr (dotted x0a x00 x00 x01))
             else if decide (k = "port"%string)
                  then Some (VInt (port Sample.long_address))
             else if decide (k = "server"%string)
                  then Some (VStr (server Sample.long_address))
             else if decide (k = "type"%string)
                  then Some (VStr (type Sample.long_address))
             else if decide (k = "name"%string)
                  then Some (VStr (name Sample.long_address))
             else (∅ : gmap string value) !! k
         end.
Proof.
  apply (add_service_stores_record Sample.long_address x0a x00 x00 x01
           [x00; x00; x00; x00; x00; x00; x00; x00; x00; x00; x00; x01]%byte).
  - reflexivity.
  - vm_compute. reflexivity.
Defined.

Example txt_port_replaces_port :
  (freebox.MDNSListener.add_service (Some Sample.long_address) ∅).2
    !! "port"%string = Some (VStr "8080").
Proof. vm_compute. reflexivity. Qed.

Example sixteen_byte_address :
  (freebox.MDNSListener.add_service (Some Sample.long_address) ∅).2
    !! "address"%string = Some (VStr "10.0.0.1").
Proof. vm_compute. reflexivity. Qed.

Lemma add_service_bad_address_run (info : ServiceInfo) (d : gmap string value) :
  (address info = None
   \/ exists bs, address info = Some bs /\ (length bs < 4)%nat) ->
  freebox.MDNSListener.add_service (Some info) d
  = (Raise (match address info with None => TypeError | Some _ => IndexError end),
     with_early info d).
Proof.
  unfold freebox.MDNSListener.add_service, freebox.MDNSListener.octet, index.
  intros [->|(bs & -> & Hlen)]; [reflexivity|].
  destruct bs as [|c0 [|c1 [|c2 [|c3 bs]]]]; try reflexivity.
  simpl in Hlen. lia.
Qed.

(** X2. For a resolved record whose address is missing or shorter than four
    bytes, [add_service] raises TypeError or IndexError after it has stored
    name, type, server and port: these four are set, the address and every
    TXT entry are not. *)
Theorem add_service_bad_address (info : ServiceInfo) (d : gmap string value) :
  (address info = None
   \/ exists bs, address info = Some bs /\ (length bs < 4)%nat) ->
  freebox.MDNSListener.add_service (Some info) d
  = (Raise (match address info with None => TypeError | Some _ => IndexError end),
     with_early info d).
Proof. apply add_service_bad_address_run. Qed.

Lemma add_service_bad_address_witness :
  freebox.MDNSListener.add_service (Some Sample.short_address) ∅
  = (Raise (match address Sample.short_address with
            | None => TypeError | Some _ => IndexError end),
     with_early Sample.short_address ∅).
Proof.
  apply (add_service_bad_address Sample.short_address ∅).
  right. exists [xc0; xa8]%byte. split; [reflexivity | simpl; lia].
Defined.

(** X3. The loop over the TXT entries stops at the first entry whose value
    or key does not decode (a value that is None or a boolean, or bytes that
    are not UTF-8): [add_service] raises that exception, the entries before
    it are stored and the entries after it are not, whatever they hold. *)
Theorem add_service_stops_at_bad_entry (info : ServiceInfo) (b0 b1 b2 b3 : byte)
    (more : list byte) (good rest : list (list byte * txt_value))
    (bad : list byte * txt_value) (kvs : list (string * string)) (x : exn)
    (d : gmap string value) :
  address info = Some (b0 :: b1 :: b2 :: b3 :: more) ->
  World.properties info = good ++ bad :: rest ->
  decode_all good = Return kvs ->
  decode_entry bad = Raise x ->
  freebox.MDNSListener.add_service (Some info) d
  = (Raise x,
     store kvs (<["address"%string := VStr (dotted b0 b1 b2 b3)]> (with_early info d))).
Proof.
  intros Ha Htxt Hgood Hbad.
  rewrite (add_service_run info b0 b1 b2 b3 more d Ha), Htxt.
  now apply txt_loop_stops.
Qed.

Lemma add_service_stops_at_bad_entry_witness :
  freebox.MDNSListener.add_service (Some Sample.flag_entry) ∅
  = (Raise (AttributeError "bool" "decode"),
     store [("api_version", "8.1")]%string
       (<["address"%string := VStr (dotted xc0 xa8 x00 xfe)]>
          (with_early Sample.flag_entry ∅))).
Proof.
  apply (add_service_stops_at_bad_entry Sample.flag_entry xc0 xa8 x00 xfe []
           [(Sample.b "api_version", TxtBytes (Sample.b "8.1"))]
           [(Sample.b "api_domain", TxtBytes (Sample.b "mafreebox.freebox.fr"))]
           (Sample.b "https_available", TxtBool true)).
  - reflexivity.
  - reflexivity.
  - vm_compute. reflexivity.
  - reflexivity.
Defined.

Example flag_entry_loses_api_domain :
  (freebox.MDNSListener.add_service (Some Sample.flag_entry) ∅).2
    !! "api_domain"%string = None.
Proof. vm_compute. reflexivity. Qed.

(** ** What the browser thread leaves in the properties *)

Lemma setitem_keeps_key (k k' : string) (v : value) :
  preserves (fun d => is_Some (d !! k)) (freebox.MDNSListener.setitem k' v).
Proof.
  intros d H. unfold freebox.MDNSListener.setitem, modify. simpl.
  rewrite lookup_insert_is_Some. destruct (decide (k' = k)); auto.
Qed.

Lemma properties_keys_kept_aux (calls : list (option ServiceInfo))
    (d : gmap string value) (k : string) :
  is_Some (d !! k) ->
  is_Some (browser_thread freebox.MDNSListener.add_service calls d !! k).
Proof.
  apply (preserves_browser_thread (fun d => is_Some (d !! k))).
  intros info. apply add_service_preserves; auto using setitem_keeps_key.
Qed.

(** X4. A key once stored stays: no callback of the browser thread removes a
    key from the properties, so the keys of an earlier record remain when a
    later record lacks them. *)
Theorem properties_keys_kept (calls : list (option ServiceInfo))
    (d : gmap string value) (k : string) :
  is_Some (d !! k) ->
  is_Some (browser_thread freebox.MDNSListener.add_service calls d !! k).
Proof. apply properties_keys_kept_aux. Qed.

Lemma properties_keys_kept_witness :
  is_Some (browser_thread freebox.MDNSListener.add_service
             [Some Sample.bare; None; Some Sample.short_address]
             Sample.server_properties !! "api_domain"%string).
Proof.
  apply (properties_keys_kept [Some Sample.bare; None; Some Sample.short_address]
           Sample.server_properties "api_domain").
  vm_compute. eexists. reflexivity.
Defined.

Lemma decode_entry_key (kv : list byte * txt_value) (x : string * string) :
  decode_entry kv = Return x -> decode kv.1 = Return x.1.
Proof.
  unfold decode_entry, mbind, result_bind.
  destruct (freebox.MDNSListener.decode_value kv.2); [|discriminate].
  destruct (decode kv.1); [|discriminate]. now intros [= <-].
Qed.

Lemma txt_loop_keeps_absent (k : string) (txt : list (list byte * txt_value))
    (d : gmap string value) :
  (forall kv, In kv txt -> decode kv.1 <> Return k) ->
  d !! k = None ->
  (for_each txt (fun kv =>
     v ← lift (freebox.MDNSListener.decode_value kv.2);
     k ← lift (decode kv.1);
     freebox.MDNSListener.setitem k (VStr v)) d).2 !! k = None.
Proof.
  revert d. induction txt as [|kv txt IH]; intros d Htxt Hd; simpl; [exact Hd|].
  unfold mbind at 1, M_bind at 1. rewrite txt_entry_run.
  destruct (decode_entry kv) as [x|] eqn:E; [|exact Hd].
  apply IH; [intros kv' H; apply Htxt; now right|].
  rewrite lookup_insert_ne; [exact Hd|].
  intros Heq. apply (Htxt kv); [now left|].
  rewrite (decode_entry_key kv x E). now rewrite Heq.
Qed.

(** The three ways the address can be. *)
Lemma address_cases (info : ServiceInfo) :
  (address info = None \/ exists bs, address info = Some bs /\ (length bs < 4)%nat)
  \/ exists b0 b1 b2 b3 more, address info = Some (b0 :: b1 :: b2 :: b3 :: more).
Proof.
  destruct (address info) as [[|c0 [|c1 [|c2 [|c3 bs]]]]|]; eauto 10;
    left; right; eexists; (split; [reflexivity | simpl; lia]).
Qed.

Lemma lookup_with_early_ne (info : ServiceInfo) (d : gmap string value) (k : string) :
  ~ In k early_keys -> with_early info d !! k = d !! k.
Proof.
  intros H. unfold with_early.
  rewrite !lookup_insert_ne; [reflexivity| | | |];
    intros <-; apply H; simpl; auto.
Qed.

Lemma add_service_keeps_absent (k : string) (info : option ServiceInfo)
    (d : gmap string value) :
  ~ In k builtin_keys ->
  (forall i kv, info = Some i -> In kv (World.properties i) -> decode kv.1 <> Return k) ->
  d !! k = None ->
  (freebox.MDNSListener.add_service info d).2 !! k = None.
Proof.
  intros Hk Htxt Hd. destruct info as [info|]; [|exact Hd].
  assert (Hearly : with_early info d !! k = None).
  { rewrite lookup_with_early_ne; [exact Hd|].
    intros H. apply Hk. simpl in *. tauto. }
  destruct (address_cases info) as [Hbad|(b0 & b1 & b2 & b3 & more & Ha)].
  - now rewrite (add_service_bad_address_run info d Hbad).
  - rewrite (add_service_run info b0 b1 b2 b3 more d Ha).
    apply txt_loop_keeps_absent; [intros kv; now apply Htxt|].
    rewrite lookup_insert_ne; [exact Hearly|].
    intros <-. apply Hk. simpl. tauto.
Qed.

Lemma absent_key_stays_absent (calls : list (option ServiceInfo)) (k : string) :
  ~ In k builtin_keys ->
  (forall info kv, In (Some info) calls -> In kv (World.properties info) ->
                   decode kv.1 <> Return k) ->
  browser_thread freebox.MDNSListener.add_service calls ∅ !! k = None.
Proof.
  intros Hk. generalize (lookup_empty (M:=gmap string) (A:=value) k).
  generalize (∅ : gmap string value).
  induction calls as [|info calls IH]; intros d Hd Htxt; simpl; [exact Hd|].
  apply IH.
  - apply add_service_keeps_absent; [exact Hk | | exact Hd].
    intros i kv -> Hin. apply (Htxt i kv); [now left | exact Hin].
  - intros i kv Hin. apply Htxt. now right.
Qed.

(** X5. Where a key comes from: a key other than name, type, server, port
    and address is in the properties after the browser thread only if some
    callback got a resolved record with a TXT entry whose key decodes to
    it. *)
Theorem key_needs_txt_entry (calls : list (option ServiceInfo)) (k : string) :
  ~ In k builtin_keys ->
  (forall info kv, In (Some info) calls -> In kv (World.properties info) ->
                   decode kv.1 <> Return k) ->
  browser_thread freebox.MDNSListener.add_service calls ∅ !! k = None.
Proof. apply absent_key_stays_absent. Qed.

Lemma key_needs_txt_entry_witness :
  browser_thread freebox.MDNSListener.add_service
    [Some Sample.bare; Some Sample.long_address] ∅ !! "api_domain"%string = None.
Proof.
  apply (key_needs_txt_entry [Some Sample.bare; Some Sample.long_address] "api_domain").
  - simpl. intros H. repeat (destruct H as [H|H]; [discriminate H|]). exact H.
  - intros info kv [[= <-]|[[= <-]|[]]] Hin; simpl in Hin.
    + destruct Hin.
    + destruct Hin as [<-|[<-|[<-|[]]]]; vm_compute; discriminate.
Defined.

Lemma with_early_has_early (info : ServiceInfo) (d : gmap string value) (k : string) :
  In k early_keys -> is_Some (with_early info d !! k).
Proof.
  unfold with_early. simpl.
  intros [<-|[<-|[<-|[<-|[]]]]]; rewrite !lookup_insert_is_Some;
    repeat (first [left; reflexivity | right; split; [discriminate|]]).
Qed.

Lemma add_service_sets_early (info : ServiceInfo) (d : gmap string value) (k : string) :
  In k early_keys ->
  is_Some ((freebox.MDNSListener.add_service (Some info) d).2 !! k).
Proof.
  intros Hk.
  destruct (address_cases info) as [Hbad|(b0 & b1 & b2 & b3 & more & Ha)].
  - rewrite (add_service_bad_address_run info d Hbad). now apply with_early_has_early.
  - rewrite (add_service_run info b0 b1 b2 b3 more d Ha).
    assert (Hloop : preserves (fun d => is_Some (d !! k))
              (for_each (World.properties info) (fun kv =>
                 v ← lift (freebox.MDNSListener.decode_value kv.2);
                 k ← lift (decode kv.1);
                 freebox.MDNSListener.setitem k (VStr v))))
      by (pose proof (setitem_keeps_key k); preserves_steps).
    apply Hloop, setitem_keeps_key. now apply with_early_has_early.
Qed.

Lemma browser_thread_sets_early (calls : list (option ServiceInfo))
    (d : gmap string value) (k : string) :
  In k early_keys -> (exists info, In (Some info) calls) ->
  is_Some (browser_thread freebox.MDNSListener.add_service calls d !! k).
Proof.
  intros Hk. revert d. induction calls as [|[info|] calls IH]; intros d [i Hin]; simpl.
  - destruct Hin.
  - apply properties_keys_kept_aux. now apply add_service_sets_early.
  - apply IH. destruct Hin as [Heq|Hin]; [discriminate | eauto].
Qed.

(** X6. Every instance that [__init__] of [freebox.py] returns has the keys
    name, type, server and port in its properties, also when the address of
    the record or one of its TXT entries made the callback raise. *)
Theorem instance_has_record_fields (e : env) (w w' : world) (self : Freebox.t) :
  Freebox.__init__ freebox.Freebox e w = (Return self, w') ->
  Forall (fun k => is_Some (Freebox.properties self !! k)) early_keys.
Proof.
  intros H. pose proof (init_returns_quiet _ _ _ _ _ H) as Hq.
  rewrite (freebox_init_properties e w w' self H).
  assert (Hr : resolved e).
  { destruct (classic_resolved e) as [Hr|Hr]; [exact Hr|].
    rewrite (freebox_init_not_found e w Hq Hr) in H. discriminate H. }
  apply Forall_forall. intros k Hk.
  apply browser_thread_sets_early; [now apply list_elem_of_In | exact Hr].
Qed.

Lemma instance_has_record_fields_witness :
  Forall (fun k => is_Some (Freebox.properties
                     {| Freebox._properties := with_early Sample.short_address ∅ |} !! k))
         early_keys.
Proof.
  apply (instance_has_record_fields
           (Sample.device 1 [Some Sample.short_address]) initial
           (after_session 2 initial)).
  vm_compute. reflexivity.
Defined.

(** ** [__init__] when a call of the session raises *)

Lemma init_when_zeroconf_raises_aux (e : env) (x : exn) (w : world) :
  zeroconf_raises e = Some x ->
  Freebox.__init__ freebox.Freebox e w = (Raise x, logged NewZeroconf w)
  /\ freeprobe.Freebox.__init__ e w = (Raise x, logged NewZeroconf w).
Proof.
  intros H. unfold Freebox.__init__, freeprobe.Freebox.__init__, Zeroconf.
  rewrite H. split; reflexivity.
Qed.

(** X7. When [Zeroconf()] raises, [__init__] lets the exception through at
    once: no browser is created, nothing is slept, cancelled or closed, and
    what is open is what was open before.  This holds for the class of
    [freebox.py] and for the one of [freeprobe.py]. *)
Theorem init_when_zeroconf_raises (e : env) (x : exn) (w : world) :
  zeroconf_raises e = Some x ->
  Freebox.__init__ freebox.Freebox e w = (Raise x, logged NewZeroconf w)
  /\ freeprobe.Freebox.__init__ e w = (Raise x, logged NewZeroconf w).
Proof. apply init_when_zeroconf_raises_aux. Qed.

Lemma init_when_zeroconf_raises_witness :
  Freebox.__init__ freebox.Freebox Sample.no_network initial
  = (Raise OSError, logged NewZeroconf initial)
  /\ freeprobe.Freebox.__init__ Sample.no_network initial
     = (Raise OSError, logged NewZeroconf initial).
Proof.
  apply (init_when_zeroconf_raises Sample.no_network OSError initial).
  reflexivity.
Defined.

(** The session after [Zeroconf()] returned, when a later call raises. *)
Lemma session_raises_after_open {A} (e : env) (secs : Z) (k : M world A)
    (x : exn) (w : world) :
  zeroconf_raises e = None -> raises_after_open e = Some x ->
  let r := (Zeroconf e ;; ServiceBrowser e Freebox._TYPE ;; time_sleep e secs ;;
            browser_cancel e ;; zeroconf_close e ;; k) w in
  r.1 = Raise x /\ zc_open r.2 = true.
Proof.
  intros Hz Hx. cbv zeta.
  unfold raises_after_open in Hx.
  unfold Zeroconf, ServiceBrowser, time_sleep, browser_cancel, zeroconf_close.
  rewrite Hz. unfold mbind, M_bind, call, outcome_of.
  destruct (browser_raises e); [inversion Hx; subst; split; reflexivity|].
  destruct (sleep_raises e); [inversion Hx; subst; split; reflexivity|].
  destruct (cancel_raises e); [inversion Hx; subst; split; reflexivity|].
  rewrite Hx. split; reflexivity.
Qed.

(** X8. When [Zeroconf()] returns and one of the later calls of the session
    raises (the browser, the sleep, the cancel or the close), [__init__]
    lets the first such exception through and the zeroconf socket is still
    open when it does, in [freebox.py] and in [freeprobe.py]. *)
Theorem init_leaves_socket_open (e : env) (x : exn) (w : world) :
  zeroconf_raises e = None -> raises_after_open e = Some x ->
  let r2 := Freebox.__init__ freebox.Freebox e w in
  let r5 := freeprobe.Freebox.__init__ e w in
  r2.1 = Raise x /\ zc_open r2.2 = true
  /\ r5.1 = Raise x /\ zc_open r5.2 = true.
Proof.
  intros Hz Hx. cbv zeta.
  unfold Freebox.__init__, freeprobe.Freebox.__init__, Freebox.getattr_MDNSListener.
  cbn [Freebox.MDNSListener freebox.Freebox].
  change (lift (Return ?l) ≫= ?k) with (k l). cbv beta zeta.
  destruct (session_raises_after_open e 2
              (if (size (browser_thread freebox.MDNSListener.add_service (callbacks e) ∅)
                   =? 0)%nat
               then raise (FreeboxError Freebox.not_found)
               else mret {| Freebox._properties :=
                              browser_thread freebox.MDNSListener.add_service
                                (callbacks e) ∅ |})
              x w Hz Hx) as [H1 H2].
  destruct (session_raises_after_open e 5
              (match browser_thread freeprobe.MDNSListener.add_service
                       (callbacks e) None with
               | None => raise (FreeboxError
                                  "Fatal: Unable to find a Freebox on the local network!")
               | Some _ => mret {| freeprobe.Freebox.svc_info :=
                                     browser_thread freeprobe.MDNSListener.add_service
                                       (callbacks e) None |}
               end)
              x w Hz Hx) as [H3 H4].
  repeat split; assumption.
Qed.

Lemma init_leaves_socket_open_witness :
  let e := Sample.interrupted [Some Sample.box_info] in
  let r2 := Freebox.__init__ freebox.Freebox e initial in
  let r5 := freeprobe.Freebox.__init__ e initial in
  r2.1 = Raise KeyboardInterrupt /\ zc_open r2.2 = true
  /\ r5.1 = Raise KeyboardInterrupt /\ zc_open r5.2 = true.
Proof.
  apply (init_leaves_socket_open (Sample.interrupted [Some Sample.box_info])
           KeyboardInterrupt initial); reflexivity.
Defined.

(** ** [_full_api_url]: errors and the path *)

Lemma full_api_url_missing_domain (self : Freebox.t) (p : string) :
  Freebox.properties self !! "api_domain"%string = None ->
  Freebox._full_api_url self p = Raise (KeyError "api_domain").
Proof. intros H. unfold Freebox._full_api_url, Freebox.getitem. now rewrite H. Qed.

Lemma full_api_url_missing_base (self : Freebox.t) (d p : string) :
  Freebox.properties self !! "api_domain"%string = Some (VStr d) ->
  Freebox.properties self !! "api_base_url"%string = None ->
  Freebox._full_api_url self p = Raise (KeyError "api_base_url").
Proof.
  intros Hd Hb. unfold Freebox._full_api_url, Freebox.getitem. now rewrite Hd, Hb.
Qed.

Lemma full_api_url_missing_version (self : Freebox.t) (d b p : string) :
  Freebox.properties self !! "api_domain"%string = Some (VStr d) ->
  Freebox.properties self !! "api_base_url"%string = Some (VStr b) ->
  Freebox.properties self !! "api_version"%string = None ->
  Freebox._full_api_url self p = Raise (KeyError "api_version").
Proof.
  intros Hd Hb Hv. unfold Freebox._full_api_url, Freebox.getitem.
  now rewrite Hd, Hb, Hv.
Qed.

(** On string-valued properties the URL is built or the first missing key is
    reported. *)
Lemma full_api_url_dichotomy (self : Freebox.t) (p : string) :
  str_valued (Freebox.properties self) ->
  (exists u, Freebox._full_api_url self p = Return u
             /\ Forall (fun k => is_Some (Freebox.properties self !! k))
                       ["api_domain"; "api_base_url"; "api_version"]%string)
  \/ (exists k, In k ["api_domain"; "api_base_url"; "api_version"]%string
                /\ Freebox.properties self !! k = None
                /\ Freebox._full_api_url self p = Raise (KeyError k)).
Proof.
  intros Hstr.
  destruct (Freebox.properties self !! "api_domain"%string) as [vd|] eqn:Hd.
  2:{ right. exists "api_domain"%string. repeat split; [now left | exact Hd |].
      now apply full_api_url_missing_domain. }
  destruct (Hstr "api_domain"%string vd) as [d ->]; [discriminate | exact Hd |].
  destruct (Freebox.properties self !! "api_base_url"%string) as [vb|] eqn:Hb.
  2:{ right. exists "api_base_url"%string.
      repeat split; [right; now left | exact Hb |].
      now apply (full_api_url_missing_base self d). }
  destruct (Hstr "api_base_url"%string vb) as [b ->]; [discriminate | exact Hb |].
  destruct (Freebox.properties self !! "api_version"%string) as [vv|] eqn:Hv.
  2:{ right. exists "api_version"%string.
      repeat split; [right; right; now left | exact Hv |].
      now apply (full_api_url_missing_version self d b). }
  destruct (Hstr "api_version"%string vv) as [v ->]; [discriminate | exact Hv |].
  left. eexists. split; [apply (full_api_url_str self d b v Hd Hb Hv)|].
  repeat constructor; [rewrite Hd | rewrite Hb | rewrite Hv]; eauto.
Qed.

(** X9. On every instance that [__init__] of [freebox.py] returns,
    [_full_api_url] either returns a URL, and then the three keys
    api_domain, api_base_url and api_version are all present, or raises
    KeyError for one of the three that is missing; it raises nothing else
    (no TypeError, AttributeError or IndexError), whatever the records
    held. *)
Theorem full_api_url_returns_or_key_error
    (e : env) (w w' : world) (self : Freebox.t) (p : string) :
  Freebox.__init__ freebox.Freebox e w = (Return self, w') ->
  (exists u, Freebox._full_api_url self p = Return u
             /\ Forall (fun k => is_Some (Freebox.properties self !! k))
                       ["api_domain"; "api_base_url"; "api_version"]%string)
  \/ (exists k, In k ["api_domain"; "api_base_url"; "api_version"]%string
                /\ Freebox.properties self !! k = None
                /\ Freebox._full_api_url self p = Raise (KeyError k)).
Proof.
  intros H. apply full_api_url_dichotomy.
  rewrite (freebox_init_properties e w w' self H).
  apply browser_thread_str_valued.
Qed.

Lemma full_api_url_returns_or_key_error_witness :
  let self := {| Freebox._properties :=
                   browser_thread freebox.MDNSListener.add_service
                     [Some Sample.flag_entry] ∅ |} in
  (exists u, Freebox._full_api_url self "/login/" = Return u
             /\ Forall (fun k => is_Some (Freebox.properties self !! k))
                       ["api_domain"; "api_base_url"; "api_version"]%string)
  \/ (exists k, In k ["api_domain"; "api_base_url"; "api_version"]%string
                /\ Freebox.properties self !! k = None
                /\ Freebox._full_api_url self "/login/" = Raise (KeyError k)).
Proof.
  apply (full_api_url_returns_or_key_error
           (Sample.device 1 [Some Sample.flag_entry]) initial (after_session 2 initial)).
  vm_compute. reflexivity.
Defined.

(** The URL is the URL of the empty path followed by the path. *)
Lemma full_api_url_path (self : Freebox.t) (p : string) :
  Freebox._full_api_url self p
  = match Freebox._full_api_url self EmptyString with
    | Return base => Return (base +:+ p)
    | Raise x => Raise x
    end.
Proof.
  unfold Freebox._full_api_url, Freebox.getitem.
  destruct (Freebox.properties self !! "api_domain"%string) as [[]|];
    try reflexivity.
  destruct (Freebox.properties self !! "api_base_url"%string) as [[]|];
    try reflexivity.
  destruct (Freebox.properties self !! "api_version"%string) as [[| v | |]|];
    try reflexivity.
  cbn [mbind result_bind Freebox.str_add Freebox.split_dot].
  rewrite index_split_0. cbn [mbind result_bind].
  now rewrite append_empty_r.
Qed.

(** X10. The path is appended as it is, after everything else: when the URL
    of a path can be built, the URL of a longer path is that URL followed by
    the rest of the path. *)
Theorem full_api_url_appends_path (self : Freebox.t) (p q u : string) :
  Freebox._full_api_url self p = Return u ->
  Freebox._full_api_url self (p +:+ q) = Return (u +:+ q).
Proof.
  rewrite (full_api_url_path self p), (full_api_url_path self (p +:+ q)).
  destruct (Freebox._full_api_url self EmptyString); [|discriminate].
  intros [= <-]. now rewrite append_assoc.
Qed.

Lemma full_api_url_appends_path_witness :
  Freebox._full_api_url Sample.box ("/login/" +:+ "authorize/")
  = Return ("https://mafreebox.freebox.fr/api/v8/login/" +:+ "authorize/").
Proof.
  apply (full_api_url_appends_path Sample.box "/login/" "authorize/").
  vm_compute. reflexivity.
Defined.

(** ** [split] *)

Lemma concat_split_cons (sep c : ascii) (piece : string) (rest : list string) :
  String.concat (String sep EmptyString) (String c piece :: rest)
  = String c (String.concat (String sep EmptyString) (piece :: rest)).
Proof. destruct rest; reflexivity. Qed.

(** X11. [api_version.split(".")] is never empty, so taking its first piece
    never raises IndexError; the first piece holds no separator, and the
    pieces joined with the separator give the text back. *)
Theorem split_first_piece (sep : ascii) (s : string) :
  (exists piece rest, split sep s = piece :: rest
                      /\ index (split sep s) 0 = Return piece
                      /\ ~ In sep (list_ascii_of_string piece))
  /\ String.concat (String sep EmptyString) (split sep s) = s.
Proof.
  induction s as [|c s [(piece & rest & Hs & _ & Hno) Hjoin]]; simpl.
  - split; [|reflexivity]. exists EmptyString, []. repeat split. intros [].
  - destruct (Ascii.eqb_spec c sep) as [->|Hne].
    + split.
      * exists EmptyString, (split sep s). repeat split. intros [].
      * rewrite Hs in *. simpl. simpl in Hjoin. now rewrite Hjoin.
    + rewrite Hs in *. split.
      * exists (String c piece), rest. repeat split.
        simpl. intros [Heq|Hin]; [congruence | now apply Hno].
      * rewrite concat_split_cons. now rewrite Hjoin.
Qed.

(** ** [register]: what it raises and what it leaves alone *)


(** X13. Discovery and registration together: when no record got by a
    callback has a TXT entry whose key decodes to api_domain, the instance
    that [__init__] of [freebox.py] returns cannot register: [register]
    raises KeyError for api_domain and makes no request. *)
Theorem register_needs_api_domain (e : env) (w w' : world) (self : Freebox.t)
    (app_name app_version : string) (w1 : world) :
  Freebox.__init__ freebox.Freebox e w = (Return self, w') ->
  (forall info kv, In (Some info) (callbacks e) -> In kv (World.properties info) ->
                   decode kv.1 <> Return "api_domain"%string) ->
  Freebox.register self e app_name app_version w1
  = (Raise (KeyError "api_domain"), w1).
Proof.
  intros H Htxt. apply register_without_url, full_api_url_missing_domain.
  rewrite (freebox_init_properties e w w' self H).
  apply absent_key_stays_absent; [|exact Htxt].
  simpl. intros Hin. repeat (destruct Hin as [Hin|Hin]; [discriminate Hin|]).
  exact Hin.
Qed.

Lemma register_needs_api_domain_witness :
  Freebox.register Sample.bare_box (Sample.device 1 [Some Sample.bare])
    "FreeProbe" "0.0.1" initial
  = (Raise (KeyError "api_domain"), initial).
Proof.
  apply (register_needs_api_domain (Sample.device 1 [Some Sample.bare])
           initial (after_session 2 initial)).
  - vm_compute. reflexivity.
  - intros info kv [[= <-]|[]] Hin. destruct Hin.
Defined.

(** ** [freeprobe.py]: the instance, its properties and [main] *)

Lemma freeprobe_init_returns_quiet (e : env) (w w' : world) (self : freeprobe.Freebox.t) :
  freeprobe.Freebox.__init__ e w = (Return self, w') -> quiet e.
Proof.
  unfold freeprobe.Freebox.__init__, quiet,
    Zeroconf, ServiceBrowser, time_sleep, browser_cancel, zeroconf_close.
  unfold mbind, M_bind, call, lift, outcome_of.
  destruct (zeroconf_raises e); [intros [=]|].
  destruct (browser_raises e); [intros [=]|].
  destruct (sleep_raises e); [intros [=]|].
  destruct (cancel_raises e); [intros [=]|].
  destruct (close_raises e); [intros [=]|].
  intros _. repeat split.
Qed.

Lemma freeprobe_init_returns (e : env) (w w' : world) (self : freeprobe.Freebox.t) :
  freeprobe.Freebox.__init__ e w = (Return self, w') ->
  exists info, last (callbacks e) = Some (Some info)
               /\ freeprobe.Freebox.svc_info self = Some info.
Proof.
  intros H. pose proof (freeprobe_init_returns_quiet e w w' self H) as Hq.
  rewrite (freeprobe_init_quiet e w Hq), freeprobe_thread_last in H.
  destruct (last (callbacks e)) as [[info|]|]; try discriminate H.
  inversion H; subst. eauto.
Qed.

Lemma freeprobe_init_by_last_aux (e : env) (w : world) :
  quiet e ->
  freeprobe.Freebox.__init__ e w
  = (match last (callbacks e) with
     | Some (Some info) => Return {| freeprobe.Freebox.svc_info := Some info |}
     | _ => Raise (FreeboxError "Fatal: Unable to find a Freebox on the local network!")
     end, after_session 5 w).
Proof.
  intros Hq. rewrite (freeprobe_init_quiet e w Hq), freeprobe_thread_last.
  destruct (last (callbacks e)) as [[info|]|]; reflexivity.
Qed.

(** X14. When no call of the session raises, [__init__] of [freeprobe.py]
    is decided by the last callback alone: when it got a resolved record the
    instance holds that record, whatever the callbacks before it got; when
    it got none, or there was no callback, FreeboxError is raised. *)
Theorem freeprobe_init_by_last_callback (e : env) (w : world) :
  quiet e ->
  freeprobe.Freebox.__init__ e w
  = (match last (callbacks e) with
     | Some (Some info) => Return {| freeprobe.Freebox.svc_info := Some info |}
     | _ => Raise (FreeboxError "Fatal: Unable to find a Freebox on the local network!")
     end, after_session 5 w).
Proof. apply freeprobe_init_by_last_aux. Qed.

Lemma freeprobe_init_by_last_callback_witness :
  freeprobe.Freebox.__init__ (Sample.device 1 [Some Sample.bare; Some Sample.box_info])
    initial
  = (match last (callbacks (Sample.device 1 [Some Sample.bare; Some Sample.box_info])) with
     | Some (Some info) => Return {| freeprobe.Freebox.svc_info := Some info |}
     | _ => Raise (FreeboxError "Fatal: Unable to find a Freebox on the local network!")
     end, after_session 5 initial).
Proof.
  apply (freeprobe_init_by_last_callback
           (Sample.device 1 [Some Sample.bare; Some Sample.box_info]) initial).
  repeat split; reflexivity.
Defined.

Lemma getter_returns_svc_info (self : freeprobe.Freebox.t)
    (g : freeprobe.Freebox.t -> option ServiceInfo) :
  In g freeprobe.Freebox.getters -> g self = freeprobe.Freebox.svc_info self.
Proof.
  simpl. intros H.
  repeat (destruct H as [<-|H];
          [cbv beta delta
             [freeprobe.Freebox.name freeprobe.Freebox.addresses
              freeprobe.Freebox.port freeprobe.Freebox.server
              freeprobe.Freebox.api_version freeprobe.Freebox.device_type
              freeprobe.Freebox.api_base_url freeprobe.Freebox.uid
              freeprobe.Freebox.api_domain freeprobe.Freebox.https_available
              freeprobe.Freebox.https_port freeprobe.Freebox.box_model
              freeprobe.Freebox.box_model_name];
           destruct (freeprobe.Freebox.svc_info self); reflexivity|]).
  destruct H.
Qed.

(** X15. On every instance that [__init__] of [freeprobe.py] returns, each
    of the thirteen properties (name, addresses, port, ..., box_model_name)
    returns the whole service record of the last callback, never None and
    never a field of the record. *)
Theorem freeprobe_properties_return_record
    (e : env) (w w' : world) (self : freeprobe.Freebox.t) :
  freeprobe.Freebox.__init__ e w = (Return self, w') ->
  exists info, last (callbacks e) = Some (Some info)
               /\ Forall (fun g => g self = Some info) freeprobe.Freebox.getters.
Proof.
  intros H. destruct (freeprobe_init_returns e w w' self H) as (info & Hlast & Hinfo).
  exists info. split; [exact Hlast|].
  apply Forall_forall. intros g Hg.
  rewrite (getter_returns_svc_info self g); [exact Hinfo | now apply list_elem_of_In].
Qed.

Lemma freeprobe_properties_return_record_witness :
  exists info,
    last (callbacks (Sample.device 1 [None; Some Sample.box_info])) = Some (Some info)
    /\ Forall (fun g => g {| freeprobe.Freebox.svc_info := Some Sample.box_info |}
                        = Some info)
              freeprobe.Freebox.getters.
Proof.
  apply (freeprobe_properties_return_record
           (Sample.device 1 [None; Some Sample.box_info]) initial
           (after_session 5 initial)).
  reflexivity.
Defined.

(** X16. [main] of [freeprobe.py], when no call of the session raises: if
    the last callback got a resolved record it returns after the session,
    having printed nothing; otherwise it prints the message of the
    FreeboxError and exits with status 1. *)
Theorem freeprobe_main_outcome (e : env) (w : world) :
  quiet e ->
  freeprobe.main e w
  = match last (callbacks e) with
    | Some (Some _) => (Return tt, after_session 5 w)
    | _ => (Raise (SystemExit 1),
            logged (Print "Fatal: Unable to find a Freebox on the local network!")
              (after_session 5 w))
    end.
Proof.
  intros Hq. unfold freeprobe.main, mbind at 1, M_bind at 1, try_except_FreeboxError.
  rewrite (freeprobe_init_by_last_aux e w Hq).
  destruct (last (callbacks e)) as [[info|]|]; reflexivity.
Qed.

Lemma freeprobe_main_outcome_witness :
  freeprobe.main (Sample.device 1 [Some Sample.box_info; None]) initial
  = match last (callbacks (Sample.device 1 [Some Sample.box_info; None])) with
    | Some (Some _) => (Return tt, after_session 5 initial)
    | _ => (Raise (SystemExit 1),
            logged (Print "Fatal: Unable to find a Freebox on the local network!")
              (after_session 5 initial))
    end.
Proof.
  apply (freeprobe_main_outcome (Sample.device 1 [Some Sample.box_info; None]) initial).
  repeat split; reflexivity.
Defined.




Example register_unreachable_device :
  Freebox.register Sample.box Sample.unreachable "FreeProbe" "0.0.1" initial
  = (Raise ConnectionError,
     logged (HttpPost "https://mafreebox.freebox.fr/api/v8/login/authorize/"
               (json_dumps (Freebox.register_data Sample.unreachable "FreeProbe" "0.0.1")))
       initial).
Proof. vm_compute. reflexivity. Qed.
